(** * Store: the inventory and sales ledger of [database/db_manager.py]

    A shallow embedding of [DatabaseManager] (SQLAlchemy over SQLite) and of
    the two handlers of [main.py] that guard it.  Tables are finite maps from
    the integer primary key to the row; a method body runs inside a session,
    a unit of work over a working copy of the tables that [commit] publishes
    and [rollback] discards. *)

From Stdlib Require Import ZArith QArith Qfield Sorting.Sorted Sorting.Permutation.
From stdpp Require Import gmap list fin_maps strings sorting.

Local Open Scope Z_scope.

(** ** Entity schema *)

(** Modelled from the spec: [database/models.py] is not part of the sources;
    the rows carry the attributes that section 3 of the specification lists
    and that [db_manager.py] reads and writes. Decimal columns are
    rationals, integer columns are unbounded integers, the timestamp is an
    integer clock value. *)
Inductive ProductCategory := Electronics | Clothing | Food | Books | Other.

Module Product.
Record t := mk {
  name : string;
  category : ProductCategory;
  price : Q;
  quantity : Z;
  min_stock : Z;
  barcode : option string;
  description : option string
}.

Definition set_name (v : string) (p : t) : t :=
  mk v (category p) (price p) (quantity p) (min_stock p) (barcode p) (description p).
Definition set_category (v : ProductCategory) (p : t) : t :=
  mk (name p) v (price p) (quantity p) (min_stock p) (barcode p) (description p).
Definition set_price (v : Q) (p : t) : t :=
  mk (name p) (category p) v (quantity p) (min_stock p) (barcode p) (description p).
Definition set_quantity (v : Z) (p : t) : t :=
  mk (name p) (category p) (price p) v (min_stock p) (barcode p) (description p).
Definition set_min_stock (v : Z) (p : t) : t :=
  mk (name p) (category p) (price p) (quantity p) v (barcode p) (description p).
Definition set_barcode (v : option string) (p : t) : t :=
  mk (name p) (category p) (price p) (quantity p) (min_stock p) v (description p).
Definition set_description (v : option string) (p : t) : t :=
  mk (name p) (category p) (price p) (quantity p) (min_stock p) (barcode p) v.
End Product.

Module Customer.
Record t := mk {
  name : string;
  phone : option string;
  email : option string;
  discount : Q;
  total_purchases : Q
}.

Definition set_total_purchases (v : Q) (c : t) : t :=
  mk (name c) (phone c) (email c) (discount c) v.
End Customer.

Module Sale.
Record t := mk {
  product_id : Z;
  customer_id : option Z;
  quantity : Z;
  price : Q;
  total : Q;
  date : Z
}.
End Sale.

Module Supply.
Record t := mk {
  supplier : string;
  product_id : Z;
  quantity : Z;
  cost : Q;
  date : Z
}.
End Supply.

Module InventoryCheck.
Record t := mk { product_id : Z }.
End InventoryCheck.

(** The five tables of the store file. *)
Record DB := mkDB {
  products : gmap Z Product.t;
  customers : gmap Z Customer.t;
  sales : gmap Z Sale.t;
  supplies : gmap Z Supply.t;
  inventory_checks : gmap Z InventoryCheck.t
}.

Definition set_products (v : gmap Z Product.t) (db : DB) : DB :=
  mkDB v (customers db) (sales db) (supplies db) (inventory_checks db).
Definition set_customers (v : gmap Z Customer.t) (db : DB) : DB :=
  mkDB (products db) v (sales db) (supplies db) (inventory_checks db).
Definition set_sales (v : gmap Z Sale.t) (db : DB) : DB :=
  mkDB (products db) (customers db) v (supplies db) (inventory_checks db).
Definition set_supplies (v : gmap Z Supply.t) (db : DB) : DB :=
  mkDB (products db) (customers db) (sales db) v (inventory_checks db).
Definition set_inventory_checks (v : gmap Z InventoryCheck.t) (db : DB) : DB :=
  mkDB (products db) (customers db) (sales db) (supplies db) v.

(** Modelled from the spec: the primary key given to a new row ("assigns
    identity"); the column declarations are in the absent [models.py]. An
    integer primary key of SQLite is one more than the largest key in use. *)
Definition next_id {R : Type} (tbl : gmap Z R) : Z :=
  1 + map_fold (fun k _ acc => Z.max k acc) 0 tbl.

(** ** Sessions *)

(** The only exception the embedded code can meet is one raised by the
    storage layer underneath a query, a flush or a commit. *)
Inductive exn := StorageFailure.

Inductive res (A : Type) :=
| Ok (a : A)
| Raise (e : exn).
Arguments Ok {A} a.
Arguments Raise {A} e.

(** [committed] is what the store file holds, [working] is what the open
    transaction sees. The engine is the SQLite of [create_engine], which
    does not enforce foreign keys unless a connection asks for it, and
    [db_manager.py] never asks: a row may name a key that no row has. [faults = Some n] makes the round trip number [n]
    (from 0) to the storage layer raise; [None] is a storage that never
    fails. *)
Record Session := mkSession {
  committed : DB;
  working : DB;
  faults : option nat
}.

Definition M (A : Type) : Type := Session -> res A * Session.

Definition ret {A : Type} (a : A) : M A := fun s => (Ok a, s).

Definition bind {A B : Type} (m : M A) (f : A -> M B) : M B := fun s =>
  match m s with
  | (Ok a, s') => f a s'
  | (Raise e, s') => (Raise e, s')
  end.

Notation "'let*' x := m 'in' k" := (bind m (fun x => k))
  (at level 10, x name, m at level 100, k at level 200).
Notation "m ;;; k" := (bind m (fun _ => k))
  (at level 100, k at level 200, right associativity).

Definition storage : M unit := fun s =>
  match faults s with
  | None => (Ok tt, s)
  | Some O => (Raise StorageFailure, s)
  | Some (S n) => (Ok tt, mkSession (committed s) (working s) (Some n))
  end.

Definition read {A : Type} (f : DB -> A) : M A := fun s => (Ok (f (working s)), s).

Definition write (f : DB -> DB) : M unit := fun s =>
  (Ok tt, mkSession (committed s) (f (working s)) (faults s)).

(** [session.query(T).get(id)] *)
Definition query_get {R : Type} (tbl : DB -> gmap Z R) (id : Z) : M (option R) :=
  storage ;;; read (fun db => tbl db !! id).

(** [session.query(T).filter(cond).all()] *)
Definition query_filter {R : Type} (tbl : DB -> gmap Z R) (cond : Z * R -> bool)
  : M (list (Z * R)) :=
  storage ;;; read (fun db => map_to_list (filter (fun kv => cond kv = true) (tbl db))).

Definition publish : M unit := fun s =>
  (Ok tt, mkSession (working s) (working s) (faults s)).

Definition commit : M unit := storage ;;; publish.

(** [session.refresh(obj)]: one more query, after which the object holds
    what the store holds. *)
Definition refresh : M unit := storage.

Definition rollback (s : Session) : Session :=
  mkSession (committed s) (committed s) (faults s).

Definition close (s : Session) : Session :=
  mkSession (committed s) (committed s) (faults s).

(** [try: body / except Exception as e: session.rollback(); raise e /
    finally: session.close()] *)
Definition try_rollback {A : Type} (body : M A) : M A := fun s =>
  match body s with
  | (Ok a, s') => (Ok a, close s')
  | (Raise e, s') => (Raise e, close (rollback s'))
  end.

(** [try: body / finally: session.close()] *)
Definition try_finally {A : Type} (body : M A) : M A := fun s =>
  match body s with
  | (r, s') => (r, close s')
  end.

(** A method call of [DatabaseManager]: [session = self.Session()] opens a
    session on the store; what the caller sees afterwards is the result and
    the store. *)
Definition run {A : Type} (m : M A) (fault : option nat) (db : DB) : res A * DB :=
  match m (mkSession db db fault) with
  | (r, s) => (r, committed s)
  end.

(** A [for] loop over the rows a query returned. *)
Fixpoint for_each {A : Type} (l : list A) (body : A -> M unit) : M unit :=
  match l with
  | [] => ret tt
  | x :: l' => body x ;;; for_each l' body
  end.

(** [session.add(row)]: the row enters the table under a new key. *)
Definition session_add_sale (row : Sale.t) : M Z :=
  let* id := read (fun db => next_id (sales db)) in
  write (fun db => set_sales (<[id := row]> (sales db)) db) ;;;
  ret id.

Definition session_add_supply (row : Supply.t) : M Z :=
  let* id := read (fun db => next_id (supplies db)) in
  write (fun db => set_supplies (<[id := row]> (supplies db)) db) ;;;
  ret id.

(** Assignment to an attribute of a row that the session tracks. *)
Definition store_product (id : Z) (row : Product.t) : M unit :=
  write (fun db => set_products (<[id := row]> (products db)) db).

Definition store_customer (id : Z) (row : Customer.t) : M unit :=
  write (fun db => set_customers (<[id := row]> (customers db)) db).

(** [session.delete(row)] *)
Definition session_delete_sale (id : Z) : M unit :=
  write (fun db => set_sales (delete id (sales db)) db).
Definition session_delete_supply (id : Z) : M unit :=
  write (fun db => set_supplies (delete id (supplies db)) db).
Definition session_delete_inventory_check (id : Z) : M unit :=
  write (fun db => set_inventory_checks (delete id (inventory_checks db)) db).
Definition session_delete_product (id : Z) : M unit :=
  write (fun db => set_products (delete id (products db)) db).

(** Python's truth value of an optional integer argument: [None] and [0]
    are false. *)
Definition truthy (x : option Z) : bool :=
  match x with
  | None => false
  | Some v => negb (v =? 0)
  end.

(** [x > 0] on a decimal. *)
Definition Qpositive (x : Q) : bool := negb (Qle_bool x 0).

(** ** DatabaseManager *)

Definition update_product_quantity (product_id quantity_change : Z)
  : M (option Product.t) :=
  try_rollback (
    let* product := query_get products product_id in
    match product with
    | Some product =>
        let product :=
          Product.set_quantity (Product.quantity product + quantity_change) product in
        store_product product_id product ;;;
        commit ;;;
        ret (Some product)
    | None => ret None
    end).

(** An omitted keyword argument is [None]. *)
Definition assign {A R : Type} (arg : option A) (set : A -> R -> R) (row : R) : R :=
  match arg with
  | Some v => set v row
  | None => row
  end.

Definition update_product (product_id : Z)
    (name : option string) (category : option ProductCategory) (price : option Q)
    (quantity min_stock : option Z) (barcode description : option string)
  : M (option Product.t) :=
  try_rollback (
    let* product := query_get products product_id in
    match product with
    | None => ret None
    | Some product =>
        let product := assign name Product.set_name product in
        let product := assign category Product.set_category product in
        let product := assign price Product.set_price product in
        let product := assign quantity Product.set_quantity product in
        let product := assign min_stock Product.set_min_stock product in
        let product := assign barcode (fun v => Product.set_barcode (Some v)) product in
        let product := assign description (fun v => Product.set_description (Some v)) product in
        store_product product_id product ;;;
        commit ;;;
        ret (Some product)
    end).

Definition delete_product (product_id : Z) : M bool :=
  try_rollback (
    let* product := query_get products product_id in
    match product with
    | None => ret false
    | Some _ =>
        let* sales := query_filter sales
                        (fun r => Sale.product_id r.2 =? product_id) in
        for_each sales (fun sale => session_delete_sale sale.1) ;;;
        let* supplies := query_filter supplies
                           (fun r => Supply.product_id r.2 =? product_id) in
        for_each supplies (fun supply => session_delete_supply supply.1) ;;;
        let* inventory_checks := query_filter inventory_checks
                           (fun r => InventoryCheck.product_id r.2 =? product_id) in
        for_each inventory_checks
          (fun check => session_delete_inventory_check check.1) ;;;
        session_delete_product product_id ;;;
        commit ;;;
        ret true
    end).

Definition sale_total (product : Product.t) (quantity : Z)
    (customer : option Customer.t) : Q :=
  let total := (Product.price product * inject_Z quantity)%Q in
  match customer with
  | Some customer =>
      if Qpositive (Customer.discount customer)
      then (total * (1 - Customer.discount customer / 100))%Q
      else total
  | None => total
  end.

Definition record_sale (now : Z) (product_id quantity : Z) (customer_id : option Z)
  : M (option (Z * Sale.t)) :=
  try_rollback (
    let* product := query_get products product_id in
    match product with
    | None => ret None
    | Some product =>
        if Product.quantity product <? quantity then ret None else
        let* customer :=
          match customer_id with
          | Some cid =>
              if truthy customer_id then query_get customers cid else ret None
          | None => ret None
          end in
        let total := sale_total product quantity customer in
        let sale := Sale.mk product_id customer_id quantity
                      (Product.price product) total now in
        store_product product_id
          (Product.set_quantity (Product.quantity product - quantity) product) ;;;
        match customer, customer_id with
        | Some customer, Some cid =>
            store_customer cid
              (Customer.set_total_purchases
                 (Customer.total_purchases customer + total)%Q customer)
        | _, _ => ret tt
        end ;;;
        let* id := session_add_sale sale in
        commit ;;;
        refresh ;;;
        ret (Some (id, sale))
    end).

Definition add_supply (now : Z) (supplier : string) (product_id quantity : Z) (cost : Q)
  : M (Z * Supply.t) :=
  try_rollback (
    let supply := Supply.mk supplier product_id quantity cost now in
    let* product := query_get products product_id in
    match product with
    | Some product =>
        store_product product_id
          (Product.set_quantity (Product.quantity product + quantity) product)
    | None => ret tt
    end ;;;
    let* id := session_add_supply supply in
    commit ;;;
    refresh ;;;
    ret (id, supply)).

(** ** Queries *)

Definition get_product_related_counts (product_id : Z) : M (nat * nat * nat) :=
  try_finally (
    let* sales := query_filter sales (fun r => Sale.product_id r.2 =? product_id) in
    let* supplies := query_filter supplies
                       (fun r => Supply.product_id r.2 =? product_id) in
    let* inventory_checks := query_filter inventory_checks
                       (fun r => InventoryCheck.product_id r.2 =? product_id) in
    ret (length sales, length supplies, length inventory_checks)).

Definition get_low_stock_products : M (list (Z * Product.t)) :=
  try_finally (
    query_filter products (fun r => Product.quantity r.2 <? Product.min_stock r.2)).

(** The rows of [Product JOIN Sale] that fall in the group of one product. *)
Definition sales_of (db : DB) (product_id : Z) : list (Z * Sale.t) :=
  map_to_list (filter (fun r => Sale.product_id r.2 = product_id) (sales db)).

(** [func.sum(Sale.quantity)] over one group. *)
Definition total_sold (db : DB) (product_id : Z) : Z :=
  foldr Z.add 0 (Sale.quantity ∘ snd <$> sales_of db product_id).

(** A result row of the best seller query: the product and [total_sold]. *)
Definition sold_row : Type := (Z * Product.t) * Z.

(** [query(Product, sum(Sale.quantity)).join(Sale).group_by(Product.id)]: an
    inner join, so a group exists for a product only when some sale joins
    with it. The join is on the foreign key [Sale.product_id] of the data
    model. *)
Definition join_group (db : DB) (r : Z * Product.t) : option sold_row :=
  match sales_of db r.1 with
  | [] => None
  | _ :: _ => Some (r, total_sold db r.1)
  end.

Definition joined_groups (db : DB) : list sold_row :=
  omap (join_group db) (map_to_list (products db)).

(** [desc('total_sold')] is the only sort key. *)
Definition desc_total_sold (a b : sold_row) : Prop := b.2 <= a.2.

(** [LIMIT n] of SQLite: a negative [n] is no limit. *)
Definition sql_limit {A : Type} (limit : Z) (rows : list A) : list A :=
  if limit <? 0 then rows else take (Z.to_nat limit) rows.

(** [get_best_selling_products(limit)]. SQL orders the groups by the sort
    key and leaves the order of groups with equal keys to the engine, so the
    method is the relation between the store and every list of rows it may
    return. *)
Inductive get_best_selling_products (db : DB) (limit : Z) : list sold_row -> Prop :=
| best_selling_rows (ordered : list sold_row) :
    ordered ≡ₚ joined_groups db ->
    StronglySorted desc_total_sold ordered ->
    get_best_selling_products db limit (sql_limit limit ordered).

#[export] Instance desc_total_sold_dec (a b : sold_row) : Decision (desc_total_sold a b).
Proof. unfold desc_total_sold. apply _. Defined.

#[export] Instance desc_total_sold_trans : Transitive desc_total_sold.
Proof. intros a b c. unfold desc_total_sold. lia. Qed.

#[export] Instance desc_total_sold_total : Total desc_total_sold.
Proof. intros a b. unfold desc_total_sold. lia. Qed.

(** One engine: a stable merge sort of the groups, taken in the order of the
    table scan. *)
Definition best_selling_stable (db : DB) (limit : Z) : list sold_row :=
  sql_limit limit (merge_sort desc_total_sold (joined_groups db)).

(** The property that ties between equal totals come out by ascending
    product id. *)
Definition ties_by_id (rows : list sold_row) : Prop :=
  forall (i j : nat) (a b : sold_row),
    (i < j)%nat -> rows !! i = Some a -> rows !! j = Some b ->
    a.2 = b.2 -> a.1.1 < b.1.1.

(** ** The handlers of [main.py] in front of the supply service *)

Module StoreApp.

Inductive message :=
| SupplierMissing
| ProductNotChosen
| QuantityNotPositive
| CostNegative
| SupplyAdded
| SupplyFailed (e : exn).

(** [StoreApp.add_supply]; [supplier] is the text of the input field after
    [strip()], [product_id] the data of the chosen combo box entry. The
    method returns a row object, which is always true, so the [else] of
    [if supply:] is never taken. *)
Definition add_supply (now : Z) (fault : option nat)
    (supplier : string) (product_id : option Z) (quantity : Z) (cost : Q)
    (db : DB) : message * DB :=
  if String.eqb supplier EmptyString then (SupplierMissing, db) else
  match product_id with
  | None => (ProductNotChosen, db)
  | Some product_id =>
      if quantity <=? 0 then (QuantityNotPositive, db) else
      if negb (Qle_bool 0 cost) then (CostNegative, db) else
      match run (add_supply now supplier product_id quantity cost) fault db with
      | (Ok _, db') => (SupplyAdded, db')
      | (Raise e, db') => (SupplyFailed e, db')
      end
  end.

End StoreApp.

(** ** Properties of the store that the claims speak about *)

(** "quantity never negative" *)
Definition stock_nonneg (db : DB) : Prop :=
  forall id p, products db !! id = Some p -> 0 <= Product.quantity p.

(** The data model of the customers: keys are the identities the store
    assigned, which start at 1, and a discount is a percentage. *)
Definition valid_customers (db : DB) : Prop :=
  forall id c, customers db !! id = Some c ->
    id <> 0 /\ (0 <= Customer.discount c)%Q /\ (Customer.discount c <= 100)%Q.

(** The discount that goes with a sale: the one of the customer it names,
    0 when it names none. *)
Definition discount_of (db : DB) (customer_id : option Z) : Q :=
  match customer_id with
  | Some cid =>
      match customers db !! cid with
      | Some c => Customer.discount c
      | None => 0%Q
      end
  | None => 0%Q
  end.

(** What the cascade delete of the specification leaves of a store: the
    product is gone and so is every sale, supply and inventory check that
    refers to it. *)
Definition cascade_deleted (product_id : Z) (db : DB) : DB :=
  mkDB (delete product_id (products db))
       (customers db)
       (filter (fun r => Sale.product_id r.2 <> product_id) (sales db))
       (filter (fun r => Supply.product_id r.2 <> product_id) (supplies db))
       (filter (fun r => InventoryCheck.product_id r.2 <> product_id)
               (inventory_checks db)).

(** A call of [record_sale] that made no sale: it returned [None] and the
    store is as it was. *)
Definition sale_refused (r : res (option (Z * Sale.t)) * DB) (db : DB) : Prop :=
  r.1 = Ok None /\ r.2 = db.

(** A call of [add_supply] that made no supply: it returned no row and the
    store is as it was. *)
Definition supply_refused (r : res (Z * Supply.t) * DB) (db : DB) : Prop :=
  (forall row, r.1 <> Ok row) /\ r.2 = db.

(** A small shop used for the concrete runs. *)
Definition widget : Product.t := Product.mk "Widget" Other 10 5 2 None None.
Definition gadget : Product.t := Product.mk "Gadget" Electronics 3 1 2 None None.
Definition alice : Customer.t := Customer.mk "Alice" None None 10 0.
Definition shop : DB :=
  mkDB (<[1 := widget]> (<[2 := gadget]> ∅)) (<[1 := alice]> ∅) ∅ ∅ ∅.

(** The customer row that [record_sale] works with once the storage has
    answered: none for an argument that Python takes as false. *)
Definition fetched_customer (db : DB) (customer_id : option Z) : option Customer.t :=
  match customer_id with
  | Some cid => if truthy customer_id then customers db !! cid else None
  | None => None
  end.

(** The [Sale] object that [record_sale] builds. *)
Definition sale_row (now pid q : Z) (customer_id : option Z) (db : DB)
    (p : Product.t) : Sale.t :=
  Sale.mk pid customer_id q (Product.price p)
    (sale_total p q (fetched_customer db customer_id)) now.

(** The store after the commit of [record_sale]. *)
Definition after_sale (now pid q : Z) (customer_id : option Z) (db : DB)
    (p : Product.t) : DB :=
  let total := sale_total p q (fetched_customer db customer_id) in
  mkDB (<[pid := Product.set_quantity (Product.quantity p - q) p]> (products db))
       (match fetched_customer db customer_id, customer_id with
        | Some c, Some cid =>
            <[cid := Customer.set_total_purchases
                       (Customer.total_purchases c + total)%Q c]> (customers db)
        | _, _ => customers db
        end)
       (<[next_id (sales db) := sale_row now pid q customer_id db p]> (sales db))
       (supplies db)
       (inventory_checks db).

(** The store after the commit of [add_supply]. *)
Definition after_supply (now : Z) (supplier : string) (pid q : Z) (cost : Q)
    (db : DB) : DB :=
  mkDB (match products db !! pid with
        | Some p => <[pid := Product.set_quantity (Product.quantity p + q) p]>
                      (products db)
        | None => products db
        end)
       (customers db)
       (sales db)
       (<[next_id (supplies db) := Supply.mk supplier pid q cost now]> (supplies db))
       (inventory_checks db).

(** The shop after one unit of each product was sold. *)
Definition shop_sold_once : DB :=
  mkDB (products shop) (customers shop)
       (<[1 := Sale.mk 1 None 1 10 10 100]> (<[2 := Sale.mk 2 None 1 3 3 101]> ∅))
       ∅ ∅.

(** The shop with the shelf of gadgets empty. *)
Definition shop_sold_out : DB :=
  set_products (<[2 := Product.set_quantity 0 gadget]> (products shop)) shop.

(** Rows of the best seller query with the two products of
    [shop_sold_once], which sold one unit each, in descending order of id. *)
Definition tied_rows : list sold_row := [((2, gadget), 1); ((1, widget), 1)].

(** The shop after three widgets were sold and no gadget. *)
Definition shop_widget_sold : DB :=
  mkDB (products shop) (customers shop) {[1 := Sale.mk 1 None 3 10 30 100]} ∅ ∅.

(** ** The other methods of [DatabaseManager] *)

(** [session.query(T).all()] *)
Definition query_all {R : Type} (tbl : DB -> gmap Z R) : M (list (Z * R)) :=
  storage ;;; read (fun db => map_to_list (tbl db)).

Definition session_add_product (row : Product.t) : M Z :=
  let* id := read (fun db => next_id (products db)) in
  write (fun db => set_products (<[id := row]> (products db)) db) ;;;
  ret id.

Definition session_add_customer (row : Customer.t) : M Z :=
  let* id := read (fun db => next_id (customers db)) in
  write (fun db => set_customers (<[id := row]> (customers db)) db) ;;;
  ret id.

(** The callers that leave [quantity] and [min_stock] out get 0 and 10. *)
Definition add_product (name : string) (category : ProductCategory) (price : Q)
    (quantity min_stock : Z) (barcode description : option string)
  : M (Z * Product.t) :=
  try_rollback (
    let product :=
      Product.mk name category price quantity min_stock barcode description in
    let* id := session_add_product product in
    commit ;;;
    ret (id, product)).

Definition get_all_products : M (list (Z * Product.t)) :=
  try_finally (query_all products).

Definition get_product_by_id (product_id : Z) : M (option Product.t) :=
  try_finally (query_get products product_id).

(** [if x and isinstance(x, str): x = x.strip() or None]. The guard is false
    for [None] and for the empty string, which are both kept as they are.
    [strip] is Python's [str.strip], taken as it is. *)
Definition strip_or_none (strip : string -> string) (x : option string)
  : option string :=
  match x with
  | Some s =>
      if String.eqb s EmptyString then Some s
      else
        let s := strip s in
        if String.eqb s EmptyString then None else Some s
  | None => None
  end.

(** Modelled from the spec: the [Customer] constructor is in the absent
    [models.py]; a customer "starts at 0" accumulated purchases. *)
Definition new_customer (name : string) (phone email : option string)
    (discount : Q) : Customer.t :=
  Customer.mk name phone email discount 0.

Definition add_customer (strip : string -> string) (name : string)
    (phone email : option string) (discount : Q) : M (Z * Customer.t) :=
  try_rollback (
    let phone := strip_or_none strip phone in
    let email := strip_or_none strip email in
    let customer := new_customer name phone email discount in
    let* id := session_add_customer customer in
    commit ;;;
    ret (id, customer)).

Definition get_all_customers : M (list (Z * Customer.t)) :=
  try_finally (query_all customers).

Definition get_customer_by_id (customer_id : Z) : M (option Customer.t) :=
  try_finally (query_get customers customer_id).

Definition get_sales_by_date_range (start_date end_date : Z)
  : M (list (Z * Sale.t)) :=
  try_finally (
    query_filter sales
      (fun r => (start_date <=? Sale.date r.2) && (Sale.date r.2 <=? end_date))).

(** [func.sum] of SQL: no row gives [NULL], which SQLAlchemy hands over as
    [None]. *)
Definition sql_sum (values : list Q) : option Q :=
  match values with
  | [] => None
  | _ :: _ => Some (foldr Qplus 0%Q values)
  end.

(** [x or 0]: [None] and a zero are false. *)
Definition or_zero (x : option Q) : Q :=
  match x with
  | Some v => if Qeq_bool v 0 then 0%Q else v
  | None => 0%Q
  end.

(** A [datetime] is always true, so [if start_date and end_date:] asks that
    both are given. *)
Definition get_total_sales_amount (start_date end_date : option Z) : M Q :=
  try_finally (
    let* rows :=
      match start_date, end_date with
      | Some start_date, Some end_date =>
          query_filter sales
            (fun r => (start_date <=? Sale.date r.2) && (Sale.date r.2 <=? end_date))
      | _, _ => query_all sales
      end in
    ret (or_zero (sql_sum (Sale.total ∘ snd <$> rows)))).

(** [order_by(desc(column))] with an integer column: the rows come out in
    descending order of the column, and SQL leaves the order of rows with
    equal values to the engine. *)
Definition desc_by {R : Type} (key : R -> Z) (a b : Z * R) : Prop :=
  key b.2 <= key a.2.

#[export] Instance desc_by_dec {R : Type} (key : R -> Z) (a b : Z * R) :
  Decision (desc_by key a b).
Proof. unfold desc_by. apply _. Defined.

#[export] Instance desc_by_trans {R : Type} (key : R -> Z) : Transitive (desc_by key).
Proof. intros a b c. unfold desc_by. lia. Qed.

#[export] Instance desc_by_total {R : Type} (key : R -> Z) : Total (desc_by key).
Proof. intros a b. unfold desc_by. lia. Qed.

Inductive order_by_desc {R : Type} (key : R -> Z) (rows : list (Z * R))
  : list (Z * R) -> Prop :=
| ordered_rows (ordered : list (Z * R)) :
    ordered ≡ₚ rows ->
    StronglySorted (desc_by key) ordered ->
    order_by_desc key rows ordered.

(** [get_all_supplies()], as the relation between the store and the lists
    it may return. *)
Definition get_all_supplies (db : DB) : list (Z * Supply.t) -> Prop :=
  order_by_desc Supply.date (map_to_list (supplies db)).

(** [get_customer_purchases(customer_id)]; SQLAlchemy compares with [None]
    by [IS NULL]. *)
Definition get_customer_purchases (db : DB) (customer_id : option Z)
  : list (Z * Sale.t) -> Prop :=
  order_by_desc Sale.date
    (map_to_list (filter (fun r => Sale.customer_id r.2 = customer_id) (sales db))).

(** ** The customer form of [main.py] *)

Module CustomerForm.

Inductive message :=
| FieldsMissing
| CustomerAdded
| CustomerFailed (e : exn).

(** [StoreApp.add_customer]; the three texts are those of the input fields,
    which the handler strips itself. *)
Definition add_customer (strip : string -> string) (fault : option nat)
    (name_text phone_text email_text : string) (discount : Q) (db : DB)
  : message * DB :=
  let name := strip name_text in
  let phone := strip phone_text in
  let email := strip email_text in
  if String.eqb name EmptyString || String.eqb phone EmptyString
  then (FieldsMissing, db)
  else
    let email := if String.eqb email EmptyString then None else Some email in
    match run (add_customer strip name (Some phone) email discount) fault db with
    | (Ok _, db') => (CustomerAdded, db')
    | (Raise e, db') => (CustomerFailed e, db')
    end.

End CustomerForm.

(** ** The sale handler and the stock column of [main.py] *)

Inductive sale_message :=
| SaleProductNotChosen
| SaleQuantityNotPositive
| SaleProductNotFound
| SaleInsufficientStock (available : Z)
| SaleDone (total : Q)
| SaleNotRecorded
| SaleFailed (e : exn).

(** [StoreApp.process_sale]; [product_id] and [customer_id] are the data of
    the chosen combo box entries, [quantity] the value of the spin box. The
    two calls of the database manager are two sessions, each with its own
    storage behaviour. The refresh of the tables after a success only reads
    the store. *)
Definition process_sale (now : Z) (fault_lookup fault_sale : option nat)
    (product_id customer_id : option Z) (quantity : Z) (db : DB)
  : sale_message * DB :=
  match product_id with
  | None => (SaleProductNotChosen, db)
  | Some product_id =>
      if quantity <=? 0 then (SaleQuantityNotPositive, db) else
      match run (get_product_by_id product_id) fault_lookup db with
      | (Raise e, db) => (SaleFailed e, db)
      | (Ok None, db) => (SaleProductNotFound, db)
      | (Ok (Some product), db) =>
          if Product.quantity product <? quantity
          then (SaleInsufficientStock (Product.quantity product), db)
          else
            match run (record_sale now product_id quantity customer_id)
                      fault_sale db with
            | (Ok (Some sale), db) => (SaleDone (Sale.total sale.2), db)
            | (Ok None, db) => (SaleNotRecorded, db)
            | (Raise e, db) => (SaleFailed e, db)
            end
      end
  end.

(** The status column that [StoreApp.refresh_products] fills in. *)
Inductive stock_status := InStock | OutOfStock | LowStock.

Definition status (product : Product.t) : stock_status :=
  if Product.quantity product =? 0 then OutOfStock
  else if Product.quantity product <? Product.min_stock product then LowStock
  else InStock.

(** The sum of the totals of a Sale table, in the order of the table scan. *)
Definition sales_total (tbl : gmap Z Sale.t) : Q :=
  foldr Qplus 0%Q (Sale.total ∘ snd <$> map_to_list tbl).

(** An instance of [strip] for the concrete runs: it takes the blanks off
    both ends. *)
Fixpoint lstrip_blanks (s : string) : string :=
  match s with
  | String c s' => if Ascii.is_space c then lstrip_blanks s' else s
  | EmptyString => EmptyString
  end.

Definition strip_blanks (s : string) : string :=
  String.rev (lstrip_blanks (String.rev (lstrip_blanks s))).

(** The discount that [record_sale] applies: the stored discount of the
    customer that the sale names when that discount is positive; 0 when it
    is not positive, when the sale names no customer, when the id is 0
    (which Python takes as false) and when the id has no row. *)
Definition applied_discount (db : DB) (customer_id : option Z) : Q :=
  match customer_id with
  | Some cid =>
      if cid =? 0 then 0%Q
      else
        match customers db !! cid with
        | Some c =>
            if Qle_bool (Customer.discount c) 0 then 0%Q else Customer.discount c
        | None => 0%Q
        end
  | None => 0%Q
  end.

(** The shop after [add_customer("Mallory", None, None, -10)], which the
    method accepts: the new customer has the key 2 and a discount of -10. *)
Definition shop_rebate : DB :=
  (run (add_customer strip_blanks "Mallory" None None (-10)) None shop).2.

(** The shop with two supplies on record, of the dates 100 and 150. *)
Definition shop_supplied : DB :=
  set_supplies
    (<[1 := Supply.mk "Acme" 1 20 50 100]> (<[2 := Supply.mk "Bolt" 2 5 12 150]> ∅))
    shop.

Arguments applied_discount : simpl never.
Arguments sale_total : simpl never.
Arguments discount_of : simpl never.
Arguments next_id : simpl never.

(** ** Lemmas on sessions *)

Ltac run_method :=
  unfold run, try_rollback, try_finally, session_add_sale, session_add_supply,
    store_product, store_customer, query_get, query_filter, commit, refresh,
    publish, storage, read, write, bind, ret, close, rollback;
  simpl.

Lemma next_id_above {R : Type} (tbl : gmap Z R) (k : Z) :
  is_Some (tbl !! k) -> k < next_id tbl.
Proof.
  unfold next_id.
  revert k.
  apply (map_fold_weak_ind
           (fun (acc : Z) (m : gmap Z R) => forall k, is_Some (m !! k) -> k < 1 + acc)).
  - intros k [x Hx]. by rewrite lookup_empty in Hx.
  - intros i x m r _ IH k Hk.
    destruct (decide (i = k)) as [->|Hne]; [lia|].
    rewrite lookup_insert_ne in Hk by done.
    specialize (IH k Hk). lia.
Qed.

Lemma next_id_fresh {R : Type} (tbl : gmap Z R) : tbl !! next_id tbl = None.
Proof.
  destruct (tbl !! next_id tbl) eqn:E; [|done].
  pose proof (next_id_above tbl (next_id tbl) (mk_is_Some _ _ E)). lia.
Qed.

Lemma Qpositive_false_le (x : Q) : Qpositive x = false -> (x <= 0)%Q.
Proof.
  unfold Qpositive. intros H. apply negb_false_iff in H. by apply Qle_bool_iff.
Qed.

(** Under the guard of [record_sale], the total is the discounted price. *)
Lemma sale_total_discount (p : Product.t) (q : Z) (c : Customer.t) :
  (0 <= Customer.discount c)%Q ->
  (sale_total p q (Some c)
   == Product.price p * inject_Z q * (1 - Customer.discount c / 100))%Q.
Proof.
  intros Hd. unfold sale_total.
  destruct (Qpositive (Customer.discount c)) eqn:E; [reflexivity|].
  apply Qpositive_false_le in E.
  assert (Customer.discount c == 0)%Q as -> by (by apply Qle_antisym).
  field.
Qed.

Lemma sale_total_anonymous (p : Product.t) (q : Z) :
  (sale_total p q None == Product.price p * inject_Z q * (1 - 0 / 100))%Q.
Proof. unfold sale_total. field. Qed.

Lemma sale_total_fetched (db : DB) (cid : option Z) (p : Product.t) (q : Z) :
  valid_customers db ->
  (sale_total p q (fetched_customer db cid)
   == Product.price p * inject_Z q * (1 - discount_of db cid / 100))%Q.
Proof.
  intros Hv. unfold fetched_customer, discount_of.
  destruct cid as [c|]; [|apply sale_total_anonymous].
  simpl. destruct (Z.eqb_spec c 0) as [->|Hc]; simpl.
  - destruct (customers db !! 0) as [c0|] eqn:E; [|apply sale_total_anonymous].
    by destruct (Hv 0 c0 E) as [[] _].
  - destruct (customers db !! c) as [cu|] eqn:E; [|apply sale_total_anonymous].
    apply sale_total_discount. by destruct (Hv c cu E) as (_ & ? & _).
Qed.

(** Every run of [record_sale] on a product with enough stock: the sale is
    committed and returned, or the storage failed after the commit, or it
    failed before and nothing is retained. *)
Lemma record_sale_run (now pid q : Z) (cid : option Z) (fault : option nat)
    (db : DB) (p : Product.t) :
  products db !! pid = Some p ->
  q <= Product.quantity p ->
  run (record_sale now pid q cid) fault db
    = (Ok (Some (next_id (sales db), sale_row now pid q cid db p)),
       after_sale now pid q cid db p)
  \/ run (record_sale now pid q cid) fault db
    = (Raise StorageFailure, after_sale now pid q cid db p)
  \/ run (record_sale now pid q cid) fault db = (Raise StorageFailure, db).
Proof.
  intros Hp Hq.
  assert ((Product.quantity p <? q) = false) as Hlt by (apply Z.ltb_ge; lia).
  unfold record_sale, after_sale, sale_row, fetched_customer.
  destruct cid as [c|];
    [destruct (c =? 0) eqn:Ec; [|destruct (customers db !! c) as [cu|] eqn:Ecu]|].
  all: destruct fault as [[|[|[|[|n]]]]|]; run_method;
    rewrite ?Hp; simpl; rewrite ?Hlt; simpl; rewrite ?Ec; simpl;
    rewrite ?Ecu; simpl; auto.
Qed.

Lemma record_sale_run_ok (now pid q : Z) (cid : option Z) (db : DB) (p : Product.t) :
  products db !! pid = Some p ->
  q <= Product.quantity p ->
  run (record_sale now pid q cid) None db
    = (Ok (Some (next_id (sales db), sale_row now pid q cid db p)),
       after_sale now pid q cid db p).
Proof.
  intros Hp Hq.
  assert ((Product.quantity p <? q) = false) as Hlt by (apply Z.ltb_ge; lia).
  unfold record_sale, after_sale, sale_row, fetched_customer.
  destruct cid as [c|];
    [destruct (c =? 0) eqn:Ec; [|destruct (customers db !! c) as [cu|] eqn:Ecu]|].
  all: run_method; rewrite ?Hp; simpl; rewrite ?Hlt; simpl; rewrite ?Ec; simpl;
    rewrite ?Ecu; simpl; auto.
Qed.

(** A run of [record_sale] that does not get to the sale: the product is
    missing or the stock is short. *)
Lemma record_sale_run_refused (now pid q : Z) (cid : option Z) (fault : option nat)
    (db : DB) :
  match products db !! pid with
  | Some p => Product.quantity p < q
  | None => True
  end ->
  run (record_sale now pid q cid) fault db
  = (match fault with Some O => Raise StorageFailure | _ => Ok None end, db).
Proof.
  intros H. unfold record_sale.
  destruct (products db !! pid) as [p|] eqn:Hp.
  - apply Z.ltb_lt in H.
    destruct fault as [[|n]|]; run_method; rewrite ?Hp; simpl; rewrite ?H; done.
  - destruct fault as [[|n]|]; run_method; rewrite ?Hp; done.
Qed.

Lemma add_supply_run (now : Z) (supplier : string) (pid q : Z) (cost : Q)
    (fault : option nat) (db : DB) :
  run (add_supply now supplier pid q cost) fault db
    = (Ok (next_id (supplies db), Supply.mk supplier pid q cost now),
       after_supply now supplier pid q cost db)
  \/ run (add_supply now supplier pid q cost) fault db
    = (Raise StorageFailure, after_supply now supplier pid q cost db)
  \/ run (add_supply now supplier pid q cost) fault db = (Raise StorageFailure, db).
Proof.
  unfold add_supply, after_supply.
  destruct (products db !! pid) as [p|] eqn:Hp.
  all: destruct fault as [[|[|[|n]]]|]; run_method; rewrite ?Hp; simpl; auto.
Qed.

Lemma add_supply_run_ok (now : Z) (supplier : string) (pid q : Z) (cost : Q) (db : DB) :
  run (add_supply now supplier pid q cost) None db
  = (Ok (next_id (supplies db), Supply.mk supplier pid q cost now),
     after_supply now supplier pid q cost db).
Proof.
  unfold add_supply, after_supply.
  destruct (products db !! pid) as [p|] eqn:Hp; run_method; rewrite ?Hp; done.
Qed.

Lemma update_product_quantity_run (pid change : Z) (fault : option nat) (db : DB) :
  (run (update_product_quantity pid change) fault db).2 = db
  \/ exists p, products db !! pid = Some p /\
       (run (update_product_quantity pid change) fault db).2
       = set_products
           (<[pid := Product.set_quantity (Product.quantity p + change) p]>
              (products db)) db.
Proof.
  unfold update_product_quantity.
  destruct (products db !! pid) as [p|] eqn:Hp.
  all: destruct fault as [[|[|n]]|]; run_method; rewrite ?Hp; simpl; eauto.
Qed.

Lemma update_product_run (pid : Z) (name : option string)
    (category : option ProductCategory) (price : option Q)
    (quantity min_stock : option Z) (barcode description : option string)
    (fault : option nat) (db : DB) :
  (run (update_product pid name category price quantity min_stock barcode
          description) fault db).2 = db
  \/ exists p p', products db !! pid = Some p /\
       Product.quantity p' = default (Product.quantity p) quantity /\
       (run (update_product pid name category price quantity min_stock barcode
               description) fault db).2
       = set_products (<[pid := p']> (products db)) db.
Proof.
  unfold update_product.
  destruct (products db !! pid) as [p|] eqn:Hp.
  all: destruct fault as [[|[|n]]|]; run_method; rewrite ?Hp; simpl; auto.
  all: right; eexists p, _; split; [done|split; [|done]].
  all: by destruct name, category, price, quantity, min_stock, barcode, description.
Qed.

Lemma stock_nonneg_insert (db : DB) (pid : Z) (p' : Product.t)
    (c : gmap Z Customer.t) (s : gmap Z Sale.t) (su : gmap Z Supply.t)
    (ic : gmap Z InventoryCheck.t) :
  stock_nonneg db ->
  0 <= Product.quantity p' ->
  stock_nonneg (mkDB (<[pid := p']> (products db)) c s su ic).
Proof.
  intros Hdb Hp' id p. simpl.
  rewrite lookup_insert. case_decide; [by intros [= <-]|]. apply Hdb.
Qed.

Lemma stock_nonneg_shop : stock_nonneg shop.
Proof.
  intros id p H. unfold shop in H. simpl in H.
  apply lookup_insert_Some in H as [[_ <-]|[_ H]]; [simpl; lia|].
  apply lookup_insert_Some in H as [[_ <-]|[_ H]]; [simpl; lia|].
  by rewrite lookup_empty in H.
Qed.

Lemma valid_customers_shop : valid_customers shop.
Proof.
  intros id c H. unfold shop in H. simpl in H.
  apply lookup_insert_Some in H as [[<- <-]|[_ H]]; [|by rewrite lookup_empty in H].
  split; [done|]. split; by vm_compute.
Qed.

(** ** C1: stock never negative *)

(** C1, as stated, fails: the direct quantity adjustment applies any delta.
    On the shop, whose stocks are 5 and 1, [update_product_quantity(1, -10)]
    commits a stock of -5. *)
Lemma stock_negative_after_adjustment :
  stock_nonneg shop /\
  ~ stock_nonneg (run (update_product_quantity 1 (-10)) None shop).2.
Proof.
  split; [apply stock_nonneg_shop|].
  intros H.
  assert (products (run (update_product_quantity 1 (-10)) None shop).2 !! 1
          = Some (Product.set_quantity (-5) widget)) as E by (by vm_compute).
  apply H in E. simpl in E. lia.
Qed.

(** C1 (amended): from a store without negative stock, [record_sale] leaves
    no negative stock whatever its arguments; [add_supply] leaves none when
    the supplied quantity is not negative; [update_product_quantity] leaves
    none when the stock plus the delta is not negative; [update_product]
    leaves none when the quantity it is given, if any, is not negative. This
    holds for every behaviour of the storage. *)
Theorem stock_nonneg_preserved (fault : option nat) (db : DB) :
  stock_nonneg db ->
  (forall now pid q cid,
      stock_nonneg (run (record_sale now pid q cid) fault db).2) /\
  (forall now supplier pid q cost,
      0 <= q ->
      stock_nonneg (run (add_supply now supplier pid q cost) fault db).2) /\
  (forall pid change,
      (forall p, products db !! pid = Some p -> 0 <= Product.quantity p + change) ->
      stock_nonneg (run (update_product_quantity pid change) fault db).2) /\
  (forall pid name category price quantity min_stock barcode description,
      (forall v, quantity = Some v -> 0 <= v) ->
      stock_nonneg
        (run (update_product pid name category price quantity min_stock barcode
                description) fault db).2).
Proof.
  intros Hdb. repeat split.
  - intros now pid q cid.
    destruct (products db !! pid) as [p|] eqn:Hp.
    + destruct (Z_lt_le_dec (Product.quantity p) q) as [Hlt|Hle].
      * rewrite record_sale_run_refused by (by rewrite Hp). done.
      * destruct (record_sale_run now pid q cid fault db p Hp Hle)
          as [-> | [-> | ->]]; simpl; try done.
        all: apply stock_nonneg_insert; [done|simpl; lia].
    + rewrite record_sale_run_refused by (by rewrite Hp). done.
  - intros now supplier pid q cost Hq.
    destruct (add_supply_run now supplier pid q cost fault db) as [-> | [-> | ->]];
      simpl; try done.
    all: unfold after_supply; destruct (products db !! pid) as [p|] eqn:Hp;
      [apply stock_nonneg_insert; [done|]; simpl; specialize (Hdb pid p Hp); lia
      |intros id p'; apply Hdb].
  - intros pid change Hc.
    destruct (update_product_quantity_run pid change fault db)
      as [-> | (p & Hp & ->)]; [done|].
    apply stock_nonneg_insert; [done|]. simpl. by apply Hc.
  - intros pid name category price quantity min_stock barcode description Hq.
    destruct (update_product_run pid name category price quantity min_stock
                barcode description fault db)
      as [-> | (p & p' & Hp & Hp' & ->)]; [done|].
    apply stock_nonneg_insert; [done|]. rewrite Hp'.
    destruct quantity as [v|]; simpl; [by apply Hq|by apply (Hdb pid)].
Qed.

Lemma stock_nonneg_preserved_witness :
  stock_nonneg shop /\
  stock_nonneg (run (record_sale 100 1 3 (Some 1)) None shop).2 /\
  stock_nonneg (run (add_supply 100 "Acme" 1 20 50) None shop).2 /\
  stock_nonneg (run (update_product_quantity 1 (-5)) None shop).2 /\
  stock_nonneg
    (run (update_product 1 None None (Some 12%Q) (Some 0) None None None) None
       shop).2.
Proof.
  pose proof (stock_nonneg_preserved None shop stock_nonneg_shop)
    as (Hsale & Hsupply & Hadjust & Hupdate).
  split; [apply stock_nonneg_shop|].
  split; [apply Hsale|].
  split; [apply Hsupply; lia|].
  split.
  - apply Hadjust. intros p Hp.
    vm_compute in Hp. injection Hp as <-. simpl. lia.
  - apply Hupdate. intros v [= <-]. lia.
Defined.

(** ** C2 to C4: recording a sale *)

(** The total that [record_sale] computes, with the discount it applies. *)
Lemma sale_total_applied (db : DB) (cid : option Z) (p : Product.t) (q : Z) :
  (sale_total p q (fetched_customer db cid)
   == Product.price p * inject_Z q * (1 - applied_discount db cid / 100))%Q.
Proof.
  unfold fetched_customer, applied_discount, sale_total.
  destruct cid as [c|]; [|field]. simpl.
  destruct (c =? 0); simpl; [field|].
  destruct (customers db !! c) as [cu|]; [|field].
  unfold Qpositive. destruct (Qle_bool (Customer.discount cu) 0); simpl; field.
Qed.

(** C2, as stated, fails: [add_customer] stores any discount, and the guard
    [customer.discount > 0] of [record_sale] leaves a discount that is not
    positive out. In [shop_rebate] the customer 2 has a discount of -10; a
    sale of 2 widgets at 10 to that customer has the total 20, where price
    times quantity times (1 - discount/100) is 22. *)
Lemma record_sale_negative_discount_ignored :
  customers shop_rebate !! 2 = Some (Customer.mk "Mallory" None None (-10) 0) /\
  products shop_rebate !! 1 = Some widget /\
  exists sid sale db',
    run (record_sale 100 1 2 (Some 2)) None shop_rebate = (Ok (Some (sid, sale)), db') /\
    (Sale.total sale == 20)%Q /\
    (Product.price widget * inject_Z 2 * (1 - discount_of shop_rebate (Some 2%Z) / 100)
     == 22)%Q /\
    ~ (Sale.total sale
       == Product.price widget * inject_Z 2
          * (1 - discount_of shop_rebate (Some 2%Z) / 100))%Q.
Proof.
  split; [by vm_compute|]. split; [by vm_compute|].
  eexists _, _, _. split.
  - apply (record_sale_run_ok 100 1 2 (Some 2) shop_rebate widget);
      [by vm_compute|simpl; lia].
  - split; [by vm_compute|]. split; [by vm_compute|]. by vm_compute.
Qed.

(** C2 (amended): a call of [record_sale] on an existing product with enough
    stock returns a sale when the storage answers, and whenever it returns
    one the stock of the product is the former stock minus the sold quantity
    and the total of the created sale is price times quantity times
    (1 - d/100), where d is the discount of the customer that the sale names
    when that discount is positive, and 0 when it is not positive or when no
    customer is attached (no id, the id 0, or an id without a row). On a
    store whose customer keys are not 0 and whose discounts are not
    negative, d is the discount of the customer the sale names, 0 when it
    names none. *)
Theorem record_sale_post (now pid q : Z) (cid : option Z) (db : DB) (p : Product.t) :
  products db !! pid = Some p ->
  q <= Product.quantity p ->
  (exists id sale db',
      run (record_sale now pid q cid) None db = (Ok (Some (id, sale)), db')) /\
  (forall fault id sale db',
      run (record_sale now pid q cid) fault db = (Ok (Some (id, sale)), db') ->
      (Product.quantity <$> products db' !! pid) = Some (Product.quantity p - q) /\
      Sale.quantity sale = q /\
      Sale.price sale = Product.price p /\
      (Sale.total sale
       == Product.price p * inject_Z q * (1 - applied_discount db cid / 100))%Q /\
      (valid_customers db ->
       (Sale.total sale
        == Product.price p * inject_Z q * (1 - discount_of db cid / 100))%Q) /\
      sales db !! id = None /\
      sales db' !! id = Some sale).
Proof.
  intros Hp Hq. split.
  - rewrite (record_sale_run_ok now pid q cid db p Hp Hq). eauto.
  - intros fault id sale db' Hrun.
    destruct (record_sale_run now pid q cid fault db p Hp Hq) as [E | [E | E]];
      rewrite E in Hrun; try discriminate.
    injection Hrun as <- <- <-. simpl.
    rewrite !lookup_insert_eq. simpl.
    repeat split; try done.
    + apply sale_total_applied.
    + intros Hv. by apply sale_total_fetched.
    + apply next_id_fresh.
Qed.

Lemma record_sale_post_witness :
  products shop_rebate !! 1 = Some widget /\
  (exists id sale db',
      run (record_sale 100 1 2 (Some 2)) None shop_rebate
      = (Ok (Some (id, sale)), db')) /\
  (forall fault id sale db',
      run (record_sale 100 1 2 (Some 2)) fault shop_rebate
      = (Ok (Some (id, sale)), db') ->
      (Product.quantity <$> products db' !! 1) = Some (Product.quantity widget - 2) /\
      Sale.quantity sale = 2 /\
      Sale.price sale = Product.price widget /\
      (Sale.total sale
       == Product.price widget * inject_Z 2
          * (1 - applied_discount shop_rebate (Some 2%Z) / 100))%Q /\
      (valid_customers shop_rebate ->
       (Sale.total sale
        == Product.price widget * inject_Z 2
           * (1 - discount_of shop_rebate (Some 2%Z) / 100))%Q) /\
      sales shop_rebate !! id = None /\
      sales db' !! id = Some sale).
Proof.
  split; [by vm_compute|].
  apply (record_sale_post 100 1 2 (Some 2) shop_rebate widget).
  - by vm_compute.
  - simpl. lia.
Defined.

(** C3: when the requested quantity exceeds the stock, [record_sale] makes
    no sale: it returns [None], its failure value, and the store (the stock
    and the Sale table with it) is as it was; a storage that fails does not
    change that. *)
Theorem record_sale_insufficient_stock (now pid q : Z) (cid : option Z)
    (fault : option nat) (db : DB) (p : Product.t) :
  products db !! pid = Some p ->
  Product.quantity p < q ->
  sale_refused (run (record_sale now pid q cid) None db) db /\
  (run (record_sale now pid q cid) fault db).2 = db /\
  (forall r, (run (record_sale now pid q cid) fault db).1 <> Ok (Some r)).
Proof.
  intros Hp Hq.
  rewrite !record_sale_run_refused by (by rewrite Hp).
  repeat split. destruct fault as [[|n]|]; done.
Qed.

Lemma record_sale_insufficient_stock_witness :
  Product.quantity widget < 10 /\
  sale_refused (run (record_sale 100 1 10 None) None shop) shop /\
  (run (record_sale 100 1 10 None) (Some 2%nat) shop).2 = shop /\
  (forall r, (run (record_sale 100 1 10 None) (Some 2%nat) shop).1 <> Ok (Some r)).
Proof.
  split; [simpl; lia|].
  apply (record_sale_insufficient_stock 100 1 10 None (Some 2%nat) shop widget).
  - reflexivity.
  - simpl. lia.
Defined.

(** C4, as stated, fails: no customer has the key 7 in the shop, yet
    [record_sale(1, 3, 7)] is not refused; it returns a sale and the store
    has changed. *)
Lemma record_sale_unknown_customer_recorded :
  customers shop !! 7 = None /\
  ~ sale_refused (run (record_sale 100 1 3 (Some 7)) None shop) shop.
Proof.
  split; [reflexivity|].
  intros [H _].
  rewrite (record_sale_run_ok 100 1 3 (Some 7) shop widget) in H;
    [discriminate|reflexivity|simpl; lia].
Qed.

(** C4 (amended): a customer id without a row in the Customer table does
    not make [record_sale] fail. On an existing product with enough stock
    the sale is recorded under that customer id at the undiscounted total
    price times quantity, the stock is decremented, and the Customer table
    is unchanged. *)
Theorem record_sale_unknown_customer (now pid q cid : Z) (db : DB) (p : Product.t) :
  products db !! pid = Some p ->
  q <= Product.quantity p ->
  customers db !! cid = None ->
  let sale := Sale.mk pid (Some cid) q (Product.price p)
                (Product.price p * inject_Z q)%Q now in
  run (record_sale now pid q (Some cid)) None db
  = (Ok (Some (next_id (sales db), sale)),
     mkDB (<[pid := Product.set_quantity (Product.quantity p - q) p]> (products db))
          (customers db)
          (<[next_id (sales db) := sale]> (sales db))
          (supplies db)
          (inventory_checks db)).
Proof.
  intros Hp Hq Hc sale.
  rewrite (record_sale_run_ok now pid q (Some cid) db p Hp Hq).
  unfold after_sale, sale_row, fetched_customer, sale. simpl.
  rewrite Hc. by destruct (cid =? 0).
Qed.

Lemma record_sale_unknown_customer_witness :
  customers shop !! 7 = None /\
  run (record_sale 100 1 3 (Some 7)) None shop
  = (Ok (Some (next_id (sales shop), Sale.mk 1 (Some 7) 3 10 (10 * inject_Z 3)%Q 100)),
     mkDB (<[1 := Product.set_quantity (5 - 3) widget]> (products shop))
          (customers shop)
          (<[next_id (sales shop) := Sale.mk 1 (Some 7) 3 10 (10 * inject_Z 3)%Q 100]>
             (sales shop))
          (supplies shop)
          (inventory_checks shop)).
Proof.
  split; [reflexivity|].
  apply (record_sale_unknown_customer 100 1 3 7 shop widget).
  - reflexivity.
  - simpl. lia.
  - reflexivity.
Defined.

(** ** C5 and C6: receiving a supply *)

(** What [add_supply] does for a product id without a row, in general: the
    guard [if product:] only skips the stock update; the Product table is
    unchanged, and the Supply row, which names the absent product, is
    persisted under a new key and returned. *)
Lemma add_supply_unknown_product (now : Z) (supplier : string) (pid q : Z)
    (cost : Q) (db : DB) :
  products db !! pid = None ->
  let supply := Supply.mk supplier pid q cost now in
  run (add_supply now supplier pid q cost) None db
  = (Ok (next_id (supplies db), supply),
     set_supplies (<[next_id (supplies db) := supply]> (supplies db)) db)
  /\ supplies db !! next_id (supplies db) = None
  /\ forall fault,
       products (run (add_supply now supplier pid q cost) fault db).2 = products db.
Proof.
  intros Hp supply. repeat split.
  - rewrite add_supply_run_ok. unfold after_supply. by rewrite Hp.
  - apply next_id_fresh.
  - intros fault.
    destruct (add_supply_run now supplier pid q cost fault db) as [-> | [-> | ->]];
      try done.
    all: unfold after_supply; by rewrite Hp.
Qed.

(** C5: the code breaks the claim. The shop has no product 9, yet
    [add_supply("Acme", 9, 5, 50)] is not refused: it returns the supply,
    and the Supply table holds a new row that names the absent product. On
    the same absent product the sibling methods [record_sale],
    [update_product_quantity] and [delete_product] return [None] or [False]
    and leave the store as it was. *)
Lemma add_supply_unknown_product_persisted :
  products shop !! 9 = None /\
  ~ supply_refused (run (add_supply 100 "Acme" 9 5 50) None shop) shop /\
  supplies (run (add_supply 100 "Acme" 9 5 50) None shop).2 !! 1
  = Some (Supply.mk "Acme" 9 5 50 100) /\
  run (record_sale 100 9 5 None) None shop = (Ok None, shop) /\
  run (update_product_quantity 9 5) None shop = (Ok None, shop) /\
  run (delete_product 9) None shop = (Ok false, shop).
Proof.
  split; [reflexivity|]. split; [|repeat split; by vm_compute].
  intros [H _]. rewrite add_supply_run_ok in H. by eapply H.
Qed.

(** C6, as stated, fails: [add_supply] has no check of the quantity. A
    supply of -3 widgets is not refused, and the stock of widgets goes from
    5 down to 2. *)
Lemma add_supply_negative_quantity_accepted :
  (Product.quantity <$> products shop !! 1) = Some 5 /\
  ~ supply_refused (run (add_supply 100 "Acme" 1 (-3) 50) None shop) shop /\
  (Product.quantity <$> products (run (add_supply 100 "Acme" 1 (-3) 50) None shop).2 !! 1)
  = Some 2.
Proof.
  split; [reflexivity|]. split; [|by vm_compute].
  intros [H _]. rewrite add_supply_run_ok in H. by eapply H.
Qed.

(** C6 (amended): the supply service does not look at the sign of the
    quantity: on an existing product it persists the Supply row and adds the
    quantity, whatever it is, to the stock. The rejection of a quantity that
    is not positive is the work of its caller, the handler
    [StoreApp.add_supply] of [main.py]: for such a quantity the handler
    shows an error and leaves the store unchanged, so that no supply entered
    through the handler lowers the stock of a product. *)
Theorem add_supply_quantity_checked_by_handler (now : Z) (fault : option nat)
    (supplier : string) (product_id : option Z) (quantity : Z) (cost : Q) (db : DB) :
  (forall pid p,
      products db !! pid = Some p ->
      exists id supply db',
        run (add_supply now supplier pid quantity cost) None db = (Ok (id, supply), db')
        /\ supplies db' !! id = Some supply
        /\ (Product.quantity <$> products db' !! pid)
           = Some (Product.quantity p + quantity)) /\
  (quantity <= 0 ->
   StoreApp.add_supply now fault supplier product_id quantity cost db
   = (if String.eqb supplier EmptyString then StoreApp.SupplierMissing
      else if product_id is Some _ then StoreApp.QuantityNotPositive
      else StoreApp.ProductNotChosen,
      db)) /\
  (forall id p,
      products db !! id = Some p ->
      exists p',
        products (StoreApp.add_supply now fault supplier product_id quantity cost db).2
          !! id = Some p'
        /\ Product.quantity p <= Product.quantity p').
Proof.
  repeat split.
  - intros pid p Hp. rewrite add_supply_run_ok.
    eexists _, _, _. split; [done|]. unfold after_supply. simpl.
    rewrite Hp, !lookup_insert_eq. done.
  - intros Hq. unfold StoreApp.add_supply.
    destruct (String.eqb supplier EmptyString); [done|].
    destruct product_id as [pid|]; [|done].
    by rewrite (proj2 (Z.leb_le quantity 0) Hq).
  - intros id p Hp. unfold StoreApp.add_supply.
    destruct (String.eqb supplier EmptyString); [by exists p|].
    destruct product_id as [pid|]; [|by exists p].
    destruct (Z.leb_spec quantity 0) as [Hq|Hq]; [by exists p|].
    destruct (negb (Qle_bool 0 cost)); [by exists p|].
    destruct (add_supply_run now supplier pid quantity cost fault db)
      as [-> | [-> | ->]]; simpl; [| |by exists p].
    all: destruct (products db !! pid) as [p0|] eqn:Hp0; [|by exists p].
    all: rewrite lookup_insert; case_decide as Hid; [subst id|by exists p].
    all: eexists; split; [done|]; simpl.
    all: rewrite Hp in Hp0; injection Hp0 as <-; lia.
Qed.

Lemma add_supply_quantity_checked_by_handler_witness :
  StoreApp.add_supply 100 None "Acme" (Some 1) (-3) 50 shop
  = (StoreApp.QuantityNotPositive, shop).
Proof.
  pose proof (add_supply_quantity_checked_by_handler
                100 None "Acme" (Some 1) (-3) 50 shop) as (_ & H & _).
  apply H. lia.
Defined.

(** The loops of [delete_product]. *)
Lemma for_each_write {A : Type} (l : list A) (f : A -> DB -> DB) (s : Session) :
  for_each l (fun x => write (f x)) s
  = (Ok tt, mkSession (committed s) (foldl (fun db x => f x db) (working s) l) (faults s)).
Proof.
  revert s. induction l as [|x l IH]; intros s; simpl.
  - by destruct s.
  - unfold bind at 1. unfold write at 1. rewrite IH. done.
Qed.

Lemma lookup_delete_all {R : Type} (l : list (Z * R)) (m : gmap Z R) (k : Z) :
  foldl (fun m x => delete x.1 m) m l !! k
  = if decide (k ∈ l.*1) then None else m !! k.
Proof.
  revert m. induction l as [|[i x] l IH]; intros m.
  - destruct (decide (k ∈ [].*1)) as [H|_]; [by apply elem_of_nil in H|done].
  - change (foldl (fun m x => delete x.1 m) (delete i m) l !! k
            = if decide (k ∈ i :: l.*1) then None else m !! k).
    rewrite IH, lookup_delete.
    destruct (decide (k ∈ l.*1)) as [Hl|Hl].
    + rewrite decide_True by (by apply list_elem_of_further). done.
    + destruct (decide (i = k)) as [->|Hne].
      * rewrite decide_True by apply list_elem_of_here. done.
      * rewrite decide_False; [done|].
        intros [->|?]%elem_of_cons; done.
Qed.

Lemma delete_matching {R : Type} (key : R -> Z) (pid : Z) (m : gmap Z R) :
  foldl (fun m x => delete x.1 m) m
    (map_to_list (filter (fun r => (key r.2 =? pid) = true) m))
  = filter (fun r => key r.2 <> pid) m.
Proof.
  apply map_eq. intros k. rewrite lookup_delete_all.
  case_decide as Hk.
  - symmetry. apply map_lookup_filter_None. right. intros x Hx Hc.
    apply list_elem_of_fmap in Hk as ([k' x'] & -> & Hin).
    apply elem_of_map_to_list in Hin.
    apply map_lookup_filter_Some in Hin as [Hm Hc']. simpl in *.
    rewrite Hx in Hm. injection Hm as <-. by apply Z.eqb_eq in Hc'.
  - destruct (m !! k) as [x|] eqn:Hx.
    + symmetry. apply map_lookup_filter_Some. split; [done|].
      intros Hc. apply Hk. apply list_elem_of_fmap. exists (k, x). split; [done|].
      apply elem_of_map_to_list. apply map_lookup_filter_Some.
      split; [done|]. by apply Z.eqb_eq.
    + symmetry. apply map_lookup_filter_None. by left.
Qed.

Lemma foldl_delete_sales (l : list (Z * Sale.t)) (db : DB) :
  foldl (fun db0 x => set_sales (delete x.1 (sales db0)) db0) db l
  = set_sales (foldl (fun m x => delete x.1 m) (sales db) l) db.
Proof.
  revert db. induction l as [|x l IH]; intros db; [by destruct db|].
  simpl. by rewrite IH.
Qed.

Lemma foldl_delete_supplies (l : list (Z * Supply.t)) (db : DB) :
  foldl (fun db0 x => set_supplies (delete x.1 (supplies db0)) db0) db l
  = set_supplies (foldl (fun m x => delete x.1 m) (supplies db) l) db.
Proof.
  revert db. induction l as [|x l IH]; intros db; [by destruct db|].
  simpl. by rewrite IH.
Qed.

Lemma foldl_delete_inventory_checks (l : list (Z * InventoryCheck.t)) (db : DB) :
  foldl (fun db0 x => set_inventory_checks (delete x.1 (inventory_checks db0)) db0) db l
  = set_inventory_checks (foldl (fun m x => delete x.1 m) (inventory_checks db) l) db.
Proof.
  revert db. induction l as [|x l IH]; intros db; [by destruct db|].
  simpl. by rewrite IH.
Qed.

Lemma delete_product_run (pid : Z) (fault : option nat) (db : DB) (p : Product.t) :
  products db !! pid = Some p ->
  run (delete_product pid) fault db
  = match fault with
    | Some n => if (n <=? 4)%nat then (Raise StorageFailure, db)
                else (Ok true, cascade_deleted pid db)
    | None => (Ok true, cascade_deleted pid db)
    end.
Proof.
  intros Hp. unfold delete_product, session_delete_sale, session_delete_supply,
    session_delete_inventory_check, session_delete_product.
  destruct fault as [[|[|[|[|[|n]]]]]|].
  all: unfold run, try_rollback, query_get, query_filter, commit, publish, storage,
         read, bind, ret, close, rollback.
  all: simpl; rewrite ?Hp; simpl.
  all: repeat (rewrite for_each_write; simpl).
  all: try done.
  all: rewrite foldl_delete_sales, foldl_delete_supplies,
         foldl_delete_inventory_checks; simpl.
  all: rewrite (delete_matching Sale.product_id),
         (delete_matching Supply.product_id),
         (delete_matching InventoryCheck.product_id).
  all: done.
Qed.

Lemma delete_product_run_absent (pid : Z) (fault : option nat) (db : DB) :
  products db !! pid = None ->
  run (delete_product pid) fault db
  = (match fault with Some O => Raise StorageFailure | _ => Ok false end, db).
Proof.
  intros Hp. unfold delete_product.
  destruct fault as [[|n]|]; run_method; rewrite ?Hp; done.
Qed.

Lemma cascade_deleted_rows (pid : Z) (db : DB) :
  products (cascade_deleted pid db) !! pid = None /\
  (forall id, id <> pid ->
     products (cascade_deleted pid db) !! id = products db !! id) /\
  customers (cascade_deleted pid db) = customers db /\
  (forall id s, sales (cascade_deleted pid db) !! id = Some s <->
     sales db !! id = Some s /\ Sale.product_id s <> pid) /\
  (forall id s, supplies (cascade_deleted pid db) !! id = Some s <->
     supplies db !! id = Some s /\ Supply.product_id s <> pid) /\
  (forall id c, inventory_checks (cascade_deleted pid db) !! id = Some c <->
     inventory_checks db !! id = Some c /\ InventoryCheck.product_id c <> pid).
Proof.
  unfold cascade_deleted. simpl.
  split; [apply lookup_delete_eq|].
  split; [intros id Hne; by apply lookup_delete_ne|].
  split; [done|].
  split; [|split]; intros id x; by rewrite map_lookup_filter_Some.
Qed.

(** ** C7: deleting a product *)

(** C7: [delete_product] on an absent product returns [False] and changes
    nothing. On a product of the store it returns [True] and commits a store
    without the product and without the sales, supplies and inventory checks
    whose [product_id] is the target, every other row being kept; whenever
    the storage fails in one of its steps the call raises and none of the
    deletions is retained, so every run ends in that store or in the store
    as it was. *)
Theorem delete_product_cascade (pid : Z) (fault : option nat) (db : DB) :
  (products db !! pid = None ->
   run (delete_product pid) None db = (Ok false, db) /\
   (run (delete_product pid) fault db).2 = db) /\
  (is_Some (products db !! pid) ->
   exists db',
     run (delete_product pid) None db = (Ok true, db') /\
     (run (delete_product pid) fault db = (Ok true, db') \/
      run (delete_product pid) fault db = (Raise StorageFailure, db)) /\
     db' = cascade_deleted pid db /\
     products db' !! pid = None /\
     (forall id, id <> pid -> products db' !! id = products db !! id) /\
     customers db' = customers db /\
     (forall id s, sales db' !! id = Some s <->
        sales db !! id = Some s /\ Sale.product_id s <> pid) /\
     (forall id s, supplies db' !! id = Some s <->
        supplies db !! id = Some s /\ Supply.product_id s <> pid) /\
     (forall id c, inventory_checks db' !! id = Some c <->
        inventory_checks db !! id = Some c /\ InventoryCheck.product_id c <> pid)).
Proof.
  split.
  - intros Hp. rewrite !delete_product_run_absent by done. done.
  - intros [p Hp]. exists (cascade_deleted pid db).
    rewrite !(delete_product_run pid _ db p Hp).
    split; [done|]. split.
    + destruct fault as [n|]; [|by left].
      destruct (n <=? 4)%nat; [by right|by left].
    + split; [done|]. apply cascade_deleted_rows.
Qed.

Lemma delete_product_cascade_witness :
  (run (delete_product 9) None shop_sold_once = (Ok false, shop_sold_once) /\
   (run (delete_product 9) (Some 3%nat) shop_sold_once).2 = shop_sold_once) /\
  exists db',
    run (delete_product 1) None shop_sold_once = (Ok true, db') /\
    run (delete_product 1) (Some 3%nat) shop_sold_once
    = (Raise StorageFailure, shop_sold_once) /\
    products db' !! 1 = None /\
    sales db' !! 1 = None /\
    sales db' !! 2 = Some (Sale.mk 2 None 1 3 3 101).
Proof.
  split.
  - apply (delete_product_cascade 9 (Some 3%nat) shop_sold_once). reflexivity.
  - destruct (proj2 (delete_product_cascade 1 (Some 3%nat) shop_sold_once))
      as (db' & Hrun & _ & -> & Hgone & _).
    { exists widget. reflexivity. }
    exists (cascade_deleted 1 shop_sold_once).
    split; [exact Hrun|]. split; [by vm_compute|].
    split; [exact Hgone|]. split; by vm_compute.
Defined.

(** ** Lemmas on the queries *)

Lemma get_low_stock_products_run (fault : option nat) (db : DB) :
  run get_low_stock_products fault db
  = (match fault with
     | Some O => Raise StorageFailure
     | _ => Ok (map_to_list
                  (filter (fun r => (Product.quantity r.2 <? Product.min_stock r.2) = true)
                          (products db)))
     end, db).
Proof. unfold get_low_stock_products. destruct fault as [[|n]|]; by run_method. Qed.

Lemma sales_of_nonempty (db : DB) (pid : Z) :
  sales_of db pid <> [] <->
  exists id s, sales db !! id = Some s /\ Sale.product_id s = pid.
Proof.
  unfold sales_of. split.
  - intros Hne.
    destruct (map_to_list (filter _ (sales db))) as [|[id s] l] eqn:E; [done|].
    assert ((id, s) ∈ map_to_list
              (filter (fun r => Sale.product_id r.2 = pid) (sales db))) as Hin
      by (rewrite E; apply list_elem_of_here).
    apply elem_of_map_to_list, map_lookup_filter_Some in Hin as [? ?]. eauto.
  - intros (id & s & Hs & Hpid) E.
    assert ((id, s) ∈ map_to_list
              (filter (fun r => Sale.product_id r.2 = pid) (sales db))) as Hin
      by (by apply elem_of_map_to_list, map_lookup_filter_Some).
    rewrite E in Hin. by apply elem_of_nil in Hin.
Qed.

Lemma elem_of_joined_groups (db : DB) (r : sold_row) :
  r ∈ joined_groups db <->
  products db !! r.1.1 = Some r.1.2 /\
  sales_of db r.1.1 <> [] /\
  r.2 = total_sold db r.1.1.
Proof.
  unfold joined_groups. rewrite list_elem_of_omap. split.
  - intros ([id p] & Hin & Hj). apply elem_of_map_to_list in Hin.
    unfold join_group in Hj. simpl in Hj.
    destruct (sales_of db id) eqn:E; [done|]. injection Hj as <-. simpl.
    rewrite E. done.
  - destruct r as [[id p] t]. simpl. intros (Hp & Hs & ->).
    exists (id, p). split; [by apply elem_of_map_to_list|].
    unfold join_group. simpl. by destruct (sales_of db id).
Qed.

Lemma joined_groups_keys_sublist (db : DB) (l : list (Z * Product.t)) :
  (omap (join_group db) l).*1 `sublist_of` l.
Proof.
  induction l as [|r l IH]; simpl; [constructor|].
  unfold join_group at 1. destruct (sales_of db r.1); simpl.
  - by apply sublist_cons.
  - by apply sublist_skip.
Qed.

Lemma joined_groups_NoDup (db : DB) : NoDup (joined_groups db).*1.*1.
Proof.
  apply (sublist_NoDup _ (map_to_list (products db)).*1);
    [apply NoDup_fst_map_to_list|].
  apply fmap_sublist, (joined_groups_keys_sublist db).
Qed.

Lemma sql_limit_sublist {A : Type} (limit : Z) (l : list A) :
  sql_limit limit l `sublist_of` l.
Proof. unfold sql_limit. destruct (limit <? 0); [done|apply sublist_take]. Qed.

Lemma sql_limit_sorted (limit : Z) (l : list sold_row) :
  StronglySorted desc_total_sold l ->
  StronglySorted desc_total_sold (sql_limit limit l).
Proof.
  intros Hl. unfold sql_limit. destruct (limit <? 0); [done|].
  rewrite <- (take_drop (Z.to_nat limit) l) in Hl.
  by apply StronglySorted_app_1_l in Hl.
Qed.

Lemma sql_limit_length {A : Type} (limit : Z) (l : list A) :
  0 <= limit -> (length (sql_limit limit l) <= Z.to_nat limit)%nat.
Proof.
  intros Hl. unfold sql_limit.
  rewrite (proj2 (Z.ltb_ge limit 0) Hl), length_take. lia.
Qed.

Lemma best_selling_stable_rows (db : DB) (limit : Z) :
  get_best_selling_products db limit (best_selling_stable db limit).
Proof.
  constructor.
  - apply merge_sort_Permutation.
  - apply StronglySorted_merge_sort; apply _.
Qed.

Lemma tied_rows_returned : get_best_selling_products shop_sold_once 10 tied_rows.
Proof.
  apply (best_selling_rows shop_sold_once 10 tied_rows).
  - by vm_compute.
  - apply (bool_decide_unpack _). by vm_compute.
Qed.

(** ** C8: low stock *)

(** C8: [get_low_stock_products] returns, once each, exactly the products
    whose quantity is strictly below their [min_stock]; a product with no
    stock at all and a positive [min_stock] is among them. The query leaves
    the store as it is. *)
Theorem low_stock_exact (db : DB) :
  exists rows,
    run get_low_stock_products None db = (Ok rows, db) /\
    NoDup rows /\
    (forall id p,
        (id, p) ∈ rows <->
        products db !! id = Some p /\ Product.quantity p < Product.min_stock p) /\
    (forall id p,
        products db !! id = Some p ->
        Product.quantity p = 0 -> 0 < Product.min_stock p -> (id, p) ∈ rows) /\
    (forall fault, (run get_low_stock_products fault db).2 = db).
Proof.
  eexists. split; [by rewrite get_low_stock_products_run|].
  split; [apply NoDup_map_to_list|].
  assert (forall id p,
    (id, p) ∈ map_to_list
      (filter (fun r => (Product.quantity r.2 <? Product.min_stock r.2) = true)
              (products db)) <->
    products db !! id = Some p /\ Product.quantity p < Product.min_stock p) as Hrows.
  { intros id p. rewrite elem_of_map_to_list, map_lookup_filter_Some. simpl.
    by rewrite Z.ltb_lt. }
  split; [done|]. split.
  - intros id p Hp H0 Hmin. apply Hrows. split; [done|lia].
  - intros fault. by rewrite get_low_stock_products_run.
Qed.

Lemma low_stock_exact_witness :
  exists rows,
    run get_low_stock_products None shop_sold_out = (Ok rows, shop_sold_out) /\
    (2, Product.set_quantity 0 gadget) ∈ rows /\
    (1, widget) ∉ rows.
Proof.
  destruct (low_stock_exact shop_sold_out) as (rows & Hrun & _ & Hrows & Hzero & _).
  exists rows. split; [exact Hrun|]. split.
  - apply Hzero; [reflexivity|reflexivity|simpl; lia].
  - intros Hin. apply Hrows in Hin as [_ Hlt]. simpl in Hlt. lia.
Defined.

(** ** C9 and C10: best sellers *)

(** C9, as stated, fails: the query sorts by [total_sold] alone. In
    [shop_sold_once] both products sold one unit, and the rows with product
    2 before product 1 are rows the query may return. *)
Lemma best_selling_ties_unordered :
  get_best_selling_products shop_sold_once 10 tied_rows /\ ~ ties_by_id tied_rows.
Proof.
  split; [apply tied_rows_returned|].
  intros H.
  assert (2 < 1) as Hlt; [|lia].
  apply (H 0%nat 1%nat ((2, gadget), 1) ((1, widget), 1)); [lia|done..].
Qed.

(** C9 (amended): [get_best_selling_products(limit)] returns rows for every
    store and limit, and whatever rows it returns are in descending order of
    the sum of [Sale.quantity] over the sales of the product, hold each
    product at most once, with that sum, and are at most [limit] rows when
    the limit is not negative. The order among products with equal sums is
    the engine's. *)
Theorem best_selling_order (db : DB) (limit : Z) :
  get_best_selling_products db limit (best_selling_stable db limit) /\
  forall rows,
    get_best_selling_products db limit rows ->
    StronglySorted desc_total_sold rows /\
    (0 <= limit -> (length rows <= Z.to_nat limit)%nat) /\
    NoDup rows.*1.*1 /\
    (forall r, r ∈ rows ->
       products db !! r.1.1 = Some r.1.2 /\ r.2 = total_sold db r.1.1).
Proof.
  split; [apply best_selling_stable_rows|].
  intros rows [ordered Hperm Hsorted]. repeat split.
  - by apply sql_limit_sorted.
  - apply sql_limit_length.
  - apply (sublist_NoDup _ ordered.*1.*1).
    + rewrite Hperm. apply joined_groups_NoDup.
    + apply fmap_sublist, fmap_sublist, sql_limit_sublist.
  - apply (sublist_subseteq _ _ (sql_limit_sublist limit ordered)) in H.
    rewrite Hperm in H. by apply elem_of_joined_groups in H as (? & _ & _).
  - apply (sublist_subseteq _ _ (sql_limit_sublist limit ordered)) in H.
    rewrite Hperm in H. by apply elem_of_joined_groups in H as (_ & _ & ?).
Qed.

Lemma best_selling_order_witness :
  get_best_selling_products shop_sold_once 10 tied_rows /\
  StronglySorted desc_total_sold tied_rows /\
  (length tied_rows <= 10)%nat /\
  NoDup tied_rows.*1.*1.
Proof.
  assert (get_best_selling_products shop_sold_once 10 tied_rows) as Hrows.
  { apply (best_selling_rows shop_sold_once 10 tied_rows).
    - by vm_compute.
    - apply (bool_decide_unpack _). by vm_compute. }
  destruct (proj2 (best_selling_order shop_sold_once 10) tied_rows Hrows)
    as (Hsorted & Hlen & Hnodup & _).
  split; [exact Hrows|]. split; [exact Hsorted|]. split; [|exact Hnodup].
  apply Hlen. lia.
Defined.

(** C10: a product that no Sale row refers to is in no row that
    [get_best_selling_products(limit)] returns, whatever the limit and
    however few products have sales. *)
Theorem best_selling_no_sales (db : DB) (limit : Z) (rows : list sold_row) (pid : Z) :
  get_best_selling_products db limit rows ->
  (forall id s, sales db !! id = Some s -> Sale.product_id s <> pid) ->
  forall r, r ∈ rows -> r.1.1 <> pid.
Proof.
  intros [ordered Hperm _] Hnone r Hr Heq. subst pid.
  apply (sublist_subseteq _ _ (sql_limit_sublist limit ordered)) in Hr.
  rewrite Hperm in Hr. apply elem_of_joined_groups in Hr as (_ & Hs & _).
  apply sales_of_nonempty in Hs as (id & s & Hs & Hpid).
  by apply (Hnone id s).
Qed.

Lemma best_selling_no_sales_witness :
  get_best_selling_products shop_widget_sold 10 [((1, widget), 3)] /\
  forall r, r ∈ [((1, widget), 3)] -> r.1.1 <> 2.
Proof.
  assert (get_best_selling_products shop_widget_sold 10 [((1, widget), 3)]) as Hrows.
  { apply (best_selling_rows shop_widget_sold 10 [((1, widget), 3)]).
    - by vm_compute.
    - apply (bool_decide_unpack _). by vm_compute. }
  split; [exact Hrows|].
  apply (best_selling_no_sales shop_widget_sold 10 [((1, widget), 3)] 2 Hrows).
  intros id s Hs. unfold shop_widget_sold in Hs. simpl in Hs.
  apply lookup_singleton_Some in Hs as [_ <-]. simpl. lia.
Defined.

(** ** Further lemmas on the runs *)

Ltac run_query :=
  unfold run, try_rollback, try_finally, session_add_product, session_add_customer,
    query_get, query_filter, query_all, commit, publish, storage, read, write,
    bind, ret, close, rollback;
  simpl.

Lemma next_id_positive {R : Type} (tbl : gmap Z R) : 0 < next_id tbl.
Proof.
  unfold next_id.
  enough (0 <= map_fold (fun (k : Z) (_ : R) (acc : Z) => Z.max k acc) 0 tbl) by lia.
  apply (map_fold_weak_ind (fun (acc : Z) (_ : gmap Z R) => 0 <= acc)); [done|].
  intros i x m r _ IH. lia.
Qed.

Lemma get_product_by_id_run (pid : Z) (fault : option nat) (db : DB) :
  run (get_product_by_id pid) fault db
  = (match fault with
     | Some O => Raise StorageFailure
     | _ => Ok (products db !! pid)
     end, db).
Proof. unfold get_product_by_id. destruct fault as [[|n]|]; by run_query. Qed.

Lemma get_customer_by_id_run (cid : Z) (fault : option nat) (db : DB) :
  run (get_customer_by_id cid) fault db
  = (match fault with
     | Some O => Raise StorageFailure
     | _ => Ok (customers db !! cid)
     end, db).
Proof. unfold get_customer_by_id. destruct fault as [[|n]|]; by run_query. Qed.

Lemma add_product_run (name : string) (category : ProductCategory) (price : Q)
    (quantity min_stock : Z) (barcode description : option string)
    (fault : option nat) (db : DB) :
  run (add_product name category price quantity min_stock barcode description)
      fault db
  = match fault with
    | Some O => (Raise StorageFailure, db)
    | _ =>
        let row :=
          Product.mk name category price quantity min_stock barcode description in
        (Ok (next_id (products db), row),
         set_products (<[next_id (products db) := row]> (products db)) db)
    end.
Proof. unfold add_product. destruct fault as [[|n]|]; by run_query. Qed.

Lemma add_customer_run (strip : string -> string) (name : string)
    (phone email : option string) (discount : Q) (fault : option nat) (db : DB) :
  run (add_customer strip name phone email discount) fault db
  = match fault with
    | Some O => (Raise StorageFailure, db)
    | _ =>
        let row := new_customer name (strip_or_none strip phone)
                     (strip_or_none strip email) discount in
        (Ok (next_id (customers db), row),
         set_customers (<[next_id (customers db) := row]> (customers db)) db)
    end.
Proof. unfold add_customer. destruct fault as [[|n]|]; by run_query. Qed.

(** X1: [add_product] stores the product under a new, positive key and
    returns it; [get_product_by_id] of that key then gives the product back,
    every other key answers as before, and the other tables are untouched.
    Whatever the storage does, the call either returns that product with
    that store, or raises with the store as it was; a storage that fails at
    the commit makes it raise. *)
Theorem add_product_lookup (name : string) (category : ProductCategory) (price : Q)
    (quantity min_stock : Z) (barcode description : option string)
    (fault : option nat) (db : DB) :
  let row := Product.mk name category price quantity min_stock barcode description in
  exists id db',
    run (add_product name category price quantity min_stock barcode description)
        None db = (Ok (id, row), db') /\
    0 < id /\
    products db !! id = None /\
    run (get_product_by_id id) None db' = (Ok (Some row), db') /\
    (forall k, k <> id ->
       run (get_product_by_id k) None db' = (Ok (products db !! k), db')) /\
    customers db' = customers db /\ sales db' = sales db /\
    supplies db' = supplies db /\ inventory_checks db' = inventory_checks db /\
    (run (add_product name category price quantity min_stock barcode description)
         fault db = (Ok (id, row), db') \/
     run (add_product name category price quantity min_stock barcode description)
         fault db = (Raise StorageFailure, db)) /\
    run (add_product name category price quantity min_stock barcode description)
        (Some 0%nat) db = (Raise StorageFailure, db).
Proof.
  intros row. eexists _, _. rewrite !add_product_run. simpl.
  split; [reflexivity|].
  split; [apply next_id_positive|].
  split; [apply next_id_fresh|].
  rewrite get_product_by_id_run. simpl. rewrite lookup_insert_eq.
  split; [done|]. split.
  { intros k Hk. rewrite get_product_by_id_run. simpl.
    by rewrite lookup_insert_ne. }
  repeat (split; [done|]).
  split; [|done].
  destruct fault as [[|n]|]; auto.
Qed.

Lemma Qpositive_true (x : Q) : (0 < x)%Q -> Qpositive x = true.
Proof.
  intros Hx. unfold Qpositive. apply negb_true_iff.
  destruct (Qle_bool x 0) eqn:E; [|done].
  apply Qle_bool_iff in E. by apply Qlt_not_le in Hx.
Qed.

Lemma fetched_customer_found (db : DB) (cid : Z) :
  cid <> 0 -> fetched_customer db (Some cid) = customers db !! cid.
Proof.
  intros Hc. unfold fetched_customer. simpl.
  by rewrite (proj2 (Z.eqb_neq cid 0) Hc).
Qed.

(** X2: a customer added with a positive discount and then named in a sale
    of a product in stock: the total of the sale is price times quantity
    times (1 - discount/100), the customer's accumulated purchases grow by
    that total, and the stock goes down by the quantity. *)
Theorem add_customer_then_sale (strip : string -> string) (name : string)
    (phone email : option string) (discount : Q) (now pid q : Z) (db : DB)
    (p : Product.t) :
  products db !! pid = Some p ->
  q <= Product.quantity p ->
  (0 < discount)%Q ->
  exists cid c db1 sid sale db2,
    run (add_customer strip name phone email discount) None db = (Ok (cid, c), db1) /\
    run (record_sale now pid q (Some cid)) None db1 = (Ok (Some (sid, sale)), db2) /\
    Sale.customer_id sale = Some cid /\
    Sale.total sale = (Product.price p * inject_Z q * (1 - discount / 100))%Q /\
    customers db2 !! cid
    = Some (Customer.set_total_purchases
              (Customer.total_purchases c + Sale.total sale)%Q c) /\
    (Product.quantity <$> products db2 !! pid) = Some (Product.quantity p - q).
Proof.
  intros Hp Hq Hd.
  set (cid := next_id (customers db)).
  set (c := new_customer name (strip_or_none strip phone)
              (strip_or_none strip email) discount).
  set (db1 := set_customers (<[cid := c]> (customers db)) db).
  exists cid, c, db1, (next_id (sales db1)), (sale_row now pid q (Some cid) db1 p),
    (after_sale now pid q (Some cid) db1 p).
  split; [by rewrite add_customer_run|].
  split; [by apply record_sale_run_ok|].
  assert (cid <> 0) as Hcid by (pose proof (next_id_positive (customers db)); lia).
  assert (fetched_customer db1 (Some cid) = Some c) as Hf.
  { rewrite fetched_customer_found by done. apply lookup_insert_eq. }
  assert (sale_total p q (Some c)
          = (Product.price p * inject_Z q * (1 - discount / 100))%Q) as Ht.
  { unfold sale_total. simpl. by rewrite Qpositive_true. }
  unfold after_sale, sale_row. rewrite Hf, Ht. simpl.
  by rewrite !lookup_insert_eq.
Qed.

Lemma add_customer_then_sale_witness :
  exists cid c db1 sid sale db2,
    run (add_customer strip_blanks "Bob" (Some "555") None 20) None shop
    = (Ok (cid, c), db1) /\
    run (record_sale 100 1 2 (Some cid)) None db1 = (Ok (Some (sid, sale)), db2) /\
    Sale.customer_id sale = Some cid /\
    Sale.total sale = (10 * inject_Z 2 * (1 - 20 / 100))%Q /\
    customers db2 !! cid
    = Some (Customer.set_total_purchases
              (Customer.total_purchases c + Sale.total sale)%Q c) /\
    (Product.quantity <$> products db2 !! 1) = Some (5 - 2).
Proof.
  apply (add_customer_then_sale strip_blanks "Bob" (Some "555") None 20 100 1 2
           shop widget).
  - reflexivity.
  - simpl. lia.
  - reflexivity.
Defined.

(** X3: what [add_customer] makes of the two optional texts, the phone and
    the email alike. [None] is stored as [None] and an empty string as the
    empty string; a text that is not empty and that [strip] empties is
    stored as [None], any other text is stored stripped. Name and discount
    are stored as given, and the customer can be read back by the returned
    key. *)
Theorem add_customer_blank_fields (strip : string -> string) (name : string)
    (phone email : option string) (discount : Q) (db : DB) :
  exists cid c db',
    run (add_customer strip name phone email discount) None db = (Ok (cid, c), db') /\
    run (get_customer_by_id cid) None db' = (Ok (Some c), db') /\
    Customer.name c = name /\
    Customer.discount c = discount /\
    (phone = None -> Customer.phone c = None) /\
    (phone = Some EmptyString -> Customer.phone c = Some EmptyString) /\
    (forall s, phone = Some s -> s <> EmptyString -> strip s = EmptyString ->
       Customer.phone c = None) /\
    (forall s, phone = Some s -> s <> EmptyString -> strip s <> EmptyString ->
       Customer.phone c = Some (strip s)) /\
    (email = None -> Customer.email c = None) /\
    (email = Some EmptyString -> Customer.email c = Some EmptyString) /\
    (forall s, email = Some s -> s <> EmptyString -> strip s = EmptyString ->
       Customer.email c = None) /\
    (forall s, email = Some s -> s <> EmptyString -> strip s <> EmptyString ->
       Customer.email c = Some (strip s)).
Proof.
  eexists _, _, _. rewrite add_customer_run. simpl. split; [reflexivity|].
  rewrite get_customer_by_id_run. simpl. rewrite lookup_insert_eq.
  split; [done|]. split; [done|]. split; [done|].
  assert (forall (x : option string) s, x = Some s -> s <> EmptyString ->
            strip_or_none strip x
            = if String.eqb (strip s) EmptyString then None else Some (strip s))
    as Hstrip.
  { intros x s -> Hs. unfold strip_or_none.
    by rewrite (proj2 (String.eqb_neq s EmptyString) Hs). }
  repeat split.
  - by intros ->.
  - by intros ->.
  - intros s Hp Hs Hb. rewrite (Hstrip _ s Hp Hs), Hb. done.
  - intros s Hp Hs Hb. rewrite (Hstrip _ s Hp Hs).
    by rewrite (proj2 (String.eqb_neq (strip s) EmptyString) Hb).
  - by intros ->.
  - by intros ->.
  - intros s Hp Hs Hb. rewrite (Hstrip _ s Hp Hs), Hb. done.
  - intros s Hp Hs Hb. rewrite (Hstrip _ s Hp Hs).
    by rewrite (proj2 (String.eqb_neq (strip s) EmptyString) Hb).
Qed.

Lemma add_customer_blank_fields_witness :
  (exists cid c db',
     run (add_customer strip_blanks "Bob" (Some "   ") (Some EmptyString) 5) None shop
     = (Ok (cid, c), db') /\
     Customer.phone c = None /\
     Customer.email c = Some EmptyString) /\
  (exists cid c db',
     run (add_customer strip_blanks "Eve" (Some " 555 ") (Some "  ") 5) None shop
     = (Ok (cid, c), db') /\
     Customer.phone c = Some "555" /\
     Customer.email c = None) /\
  (exists cid c db',
     run (add_customer strip_blanks "Dan" None (Some " d@x.org ") 5) None shop
     = (Ok (cid, c), db') /\
     Customer.phone c = None /\
     Customer.email c = Some "d@x.org") /\
  (exists cid c db',
     run (add_customer strip_blanks "Fay" (Some EmptyString) None 5) None shop
     = (Ok (cid, c), db') /\
     Customer.phone c = Some EmptyString /\
     Customer.email c = None).
Proof.
  split; [|split; [|split]].
  - destruct (add_customer_blank_fields strip_blanks "Bob" (Some "   ")
                (Some EmptyString) 5 shop)
      as (cid & c & db' & Hrun & _ & _ & _ & _ & _ & Hblank & _ & _ & Hempty & _).
    exists cid, c, db'. split; [exact Hrun|]. split.
    + apply (Hblank "   "); [reflexivity|discriminate|reflexivity].
    + apply Hempty. reflexivity.
  - destruct (add_customer_blank_fields strip_blanks "Eve" (Some " 555 ")
                (Some "  ") 5 shop)
      as (cid & c & db' & Hrun & _ & _ & _ & _ & _ & _ & Hstrip & _ & _ & Hblank & _).
    exists cid, c, db'. split; [exact Hrun|]. split.
    + apply (Hstrip " 555 "); [reflexivity|discriminate|discriminate].
    + apply (Hblank "  "); [reflexivity|discriminate|reflexivity].
  - destruct (add_customer_blank_fields strip_blanks "Dan" None
                (Some " d@x.org ") 5 shop)
      as (cid & c & db' & Hrun & _ & _ & _ & Hnone & _ & _ & _ & _ & _ & _ & Hstrip).
    exists cid, c, db'. split; [exact Hrun|]. split.
    + apply Hnone. reflexivity.
    + apply (Hstrip " d@x.org "); [reflexivity|discriminate|discriminate].
  - destruct (add_customer_blank_fields strip_blanks "Fay" (Some EmptyString)
                None 5 shop)
      as (cid & c & db' & Hrun & _ & _ & _ & _ & Hempty & _ & _ & Hnone & _).
    exists cid, c, db'. split; [exact Hrun|]. split.
    + apply Hempty. reflexivity.
    + apply Hnone. reflexivity.
Defined.

Lemma update_product_quantity_run_ok (pid change : Z) (db : DB) :
  run (update_product_quantity pid change) None db
  = match products db !! pid with
    | Some p =>
        let p' := Product.set_quantity (Product.quantity p + change) p in
        (Ok (Some p'), set_products (<[pid := p']> (products db)) db)
    | None => (Ok None, db)
    end.
Proof.
  unfold update_product_quantity.
  destruct (products db !! pid) as [p|] eqn:Hp; run_method; by rewrite Hp.
Qed.

Lemma set_products_same (db : DB) : set_products (products db) db = db.
Proof. by destruct db. Qed.

(** X4: on an existing product, [update_product_quantity] by a delta and
    then by the opposite delta gives back the product and the store. *)
Theorem update_product_quantity_undo (pid change : Z) (db : DB) (p : Product.t) :
  products db !! pid = Some p ->
  exists p1 db1,
    run (update_product_quantity pid change) None db = (Ok (Some p1), db1) /\
    Product.quantity p1 = Product.quantity p + change /\
    run (update_product_quantity pid (- change)) None db1 = (Ok (Some p), db).
Proof.
  intros Hp.
  set (p1 := Product.set_quantity (Product.quantity p + change) p).
  exists p1, (set_products (<[pid := p1]> (products db)) db).
  split; [by rewrite update_product_quantity_run_ok, Hp|]. split; [done|].
  rewrite update_product_quantity_run_ok.
  change (products (set_products (<[pid := p1]> (products db)) db))
    with (<[pid := p1]> (products db)).
  rewrite lookup_insert_eq. cbv zeta.
  assert (Product.set_quantity (Product.quantity p1 + - change) p1 = p) as ->.
  { unfold p1. destruct p. unfold Product.set_quantity. simpl. f_equal. lia. }
  rewrite insert_insert_eq, insert_id by done.
  by destruct db.
Qed.

Lemma update_product_quantity_undo_witness :
  exists p1 db1,
    run (update_product_quantity 1 (-10)) None shop = (Ok (Some p1), db1) /\
    Product.quantity p1 = 5 + -10 /\
    run (update_product_quantity 1 (- -10)) None db1 = (Ok (Some widget), shop).
Proof.
  apply (update_product_quantity_undo 1 (-10) shop widget). reflexivity.
Defined.

Lemma update_product_run_ok (pid : Z) (name : option string)
    (category : option ProductCategory) (price : option Q)
    (quantity min_stock : option Z) (barcode description : option string)
    (db : DB) :
  run (update_product pid name category price quantity min_stock barcode
         description) None db
  = match products db !! pid with
    | None => (Ok None, db)
    | Some p =>
        let p' :=
          assign description (fun v => Product.set_description (Some v))
            (assign barcode (fun v => Product.set_barcode (Some v))
               (assign min_stock Product.set_min_stock
                  (assign quantity Product.set_quantity
                     (assign price Product.set_price
                        (assign category Product.set_category
                           (assign name Product.set_name p)))))) in
        (Ok (Some p'), set_products (<[pid := p']> (products db)) db)
    end.
Proof.
  unfold update_product.
  destruct (products db !! pid) as [p|] eqn:Hp; run_method; by rewrite Hp.
Qed.

(** X5: [update_product] on an existing product overwrites exactly the
    fields that are given and keeps the others; a barcode or a description,
    once set, is kept when the argument is [None]. *)
Theorem update_product_fields (pid : Z) (name : option string)
    (category : option ProductCategory) (price : option Q)
    (quantity min_stock : option Z) (barcode description : option string)
    (db : DB) (p : Product.t) :
  products db !! pid = Some p ->
  exists p',
    run (update_product pid name category price quantity min_stock barcode
           description) None db
    = (Ok (Some p'), set_products (<[pid := p']> (products db)) db) /\
    Product.name p' = default (Product.name p) name /\
    Product.category p' = default (Product.category p) category /\
    Product.price p' = default (Product.price p) price /\
    Product.quantity p' = default (Product.quantity p) quantity /\
    Product.min_stock p' = default (Product.min_stock p) min_stock /\
    Product.barcode p' = (if barcode is Some _ then barcode else Product.barcode p) /\
    Product.description p'
    = (if description is Some _ then description else Product.description p).
Proof.
  intros Hp. eexists. rewrite update_product_run_ok, Hp.
  split; [reflexivity|].
  by destruct name, category, price, quantity, min_stock, barcode, description.
Qed.

Lemma update_product_fields_witness :
  exists p',
    run (update_product 1 None None (Some 12%Q) None (Some 4) None None) None shop
    = (Ok (Some p'), set_products (<[1 := p']> (products shop)) shop) /\
    Product.name p' = "Widget" /\
    Product.price p' = 12%Q /\
    Product.quantity p' = 5 /\
    Product.min_stock p' = 4.
Proof.
  destruct (update_product_fields 1 None None (Some 12%Q) None (Some 4) None None
              shop widget eq_refl)
    as (p' & Hrun & Hname & _ & Hprice & Hquantity & Hmin & _).
  exists p'. split; [exact Hrun|]. by repeat split.
Defined.

(** X6: [update_product] on an absent product returns [None] and leaves
    the store as it was, whatever the storage does; with no field given, on
    an existing product, it returns the product and the store is
    unchanged. *)
Theorem update_product_nothing_to_do (pid : Z) (name : option string)
    (category : option ProductCategory) (price : option Q)
    (quantity min_stock : option Z) (barcode description : option string)
    (fault : option nat) (db : DB) :
  (products db !! pid = None ->
   run (update_product pid name category price quantity min_stock barcode
          description) None db = (Ok None, db) /\
   (run (update_product pid name category price quantity min_stock barcode
           description) fault db).2 = db) /\
  (forall p, products db !! pid = Some p ->
   run (update_product pid None None None None None None None) None db
   = (Ok (Some p), db)).
Proof.
  split.
  - intros Hp. rewrite update_product_run_ok, Hp. split; [done|].
    unfold update_product.
    destruct fault as [[|n]|]; run_method; by rewrite ?Hp.
  - intros p Hp. rewrite update_product_run_ok, Hp. cbv zeta. unfold assign.
    by rewrite insert_id, set_products_same.
Qed.

Lemma update_product_nothing_to_do_witness :
  (run (update_product 9 (Some "Gizmo") None None (Some 3) None None None) None shop
   = (Ok None, shop) /\
   (run (update_product 9 (Some "Gizmo") None None (Some 3) None None None)
      (Some 1%nat) shop).2 = shop) /\
  run (update_product 1 None None None None None None None) None shop
  = (Ok (Some widget), shop).
Proof.
  destruct (update_product_nothing_to_do 9 (Some "Gizmo") None None (Some 3) None
              None None (Some 1%nat) shop) as [Habsent _].
  destruct (update_product_nothing_to_do 1 None None None None None None None
              None shop) as [_ Hsame].
  split; [apply Habsent; reflexivity|apply Hsame; reflexivity].
Defined.

(** X7: a sale to a customer of the store adds the total of the sale to
    the accumulated purchases of that customer and changes nothing else in
    the row; other customers, other products, the sales already recorded,
    the supplies and the inventory checks are left as they were. *)
Theorem record_sale_customer_account (now pid q cid : Z) (db : DB) (p : Product.t)
    (c : Customer.t) :
  products db !! pid = Some p ->
  q <= Product.quantity p ->
  cid <> 0 ->
  customers db !! cid = Some c ->
  exists sid sale db',
    run (record_sale now pid q (Some cid)) None db = (Ok (Some (sid, sale)), db') /\
    customers db' !! cid
    = Some (Customer.set_total_purchases
              (Customer.total_purchases c + Sale.total sale)%Q c) /\
    (forall k, k <> cid -> customers db' !! k = customers db !! k) /\
    (forall k, k <> pid -> products db' !! k = products db !! k) /\
    (forall k s, sales db !! k = Some s -> sales db' !! k = Some s) /\
    supplies db' = supplies db /\
    inventory_checks db' = inventory_checks db.
Proof.
  intros Hp Hq Hcid Hc.
  exists (next_id (sales db)), (sale_row now pid q (Some cid) db p),
    (after_sale now pid q (Some cid) db p).
  split; [by apply record_sale_run_ok|].
  unfold after_sale, sale_row. rewrite fetched_customer_found, Hc by done. simpl.
  split; [apply lookup_insert_eq|].
  split; [intros k Hk; by apply lookup_insert_ne|].
  split; [intros k Hk; by apply lookup_insert_ne|].
  split; [|done].
  intros k s Hs. rewrite lookup_insert_ne; [done|].
  intros <-. by rewrite next_id_fresh in Hs.
Qed.

Lemma record_sale_customer_account_witness :
  exists sid sale db',
    run (record_sale 100 1 3 (Some 1)) None shop = (Ok (Some (sid, sale)), db') /\
    customers db' !! 1
    = Some (Customer.set_total_purchases
              (Customer.total_purchases alice + Sale.total sale)%Q alice).
Proof.
  destruct (record_sale_customer_account 100 1 3 1 shop widget alice)
    as (sid & sale & db' & Hrun & Hc & _).
  - reflexivity.
  - simpl. lia.
  - lia.
  - reflexivity.
  - by exists sid, sale, db'.
Defined.

(** X8: [record_sale] does not look at the sign of the quantity: on a
    product whose stock is not negative, a quantity of zero or less is
    recorded as a sale like any other, and the stock goes up by as much. *)
Theorem record_sale_quantity_not_checked (now pid q : Z) (cid : option Z)
    (db : DB) (p : Product.t) :
  products db !! pid = Some p ->
  q <= 0 ->
  0 <= Product.quantity p ->
  exists sid sale db',
    run (record_sale now pid q cid) None db = (Ok (Some (sid, sale)), db') /\
    Sale.quantity sale = q /\
    sales db' !! sid = Some sale /\
    (Product.quantity <$> products db' !! pid) = Some (Product.quantity p - q) /\
    Product.quantity p <= Product.quantity p - q.
Proof.
  intros Hp Hq Hstock.
  exists (next_id (sales db)), (sale_row now pid q cid db p),
    (after_sale now pid q cid db p).
  split; [apply record_sale_run_ok; [done|lia]|].
  unfold after_sale, sale_row. simpl. rewrite !lookup_insert_eq. simpl.
  repeat split; try done. lia.
Qed.

Lemma record_sale_quantity_not_checked_witness :
  exists sid sale db',
    run (record_sale 100 1 (-3) None) None shop = (Ok (Some (sid, sale)), db') /\
    Sale.quantity sale = -3 /\
    (Product.quantity <$> products db' !! 1) = Some (5 - -3).
Proof.
  destruct (record_sale_quantity_not_checked 100 1 (-3) None shop widget)
    as (sid & sale & db' & Hrun & Hq & _ & Hstock & _).
  - reflexivity.
  - lia.
  - simpl. lia.
  - by exists sid, sale, db'.
Defined.

(** X9: the handler [process_sale]. It never reports a sale that the
    database manager refused, since it has checked the product and the
    stock itself. A sale it reports was of a positive quantity within the
    stock of an existing product, whose stock is lower by that quantity.
    When it reports anything but a sale or a failure of the storage, the
    store is as it was. *)
Theorem process_sale_guarded (now : Z) (fault_lookup fault_sale : option nat)
    (product_id customer_id : option Z) (quantity : Z) (db : DB) :
  (process_sale now fault_lookup fault_sale product_id customer_id quantity db).1
  <> SaleNotRecorded /\
  (forall total db',
      process_sale now fault_lookup fault_sale product_id customer_id quantity db
      = (SaleDone total, db') ->
      exists pid p,
        product_id = Some pid /\
        products db !! pid = Some p /\
        0 < quantity <= Product.quantity p /\
        (Product.quantity <$> products db' !! pid)
        = Some (Product.quantity p - quantity) /\
        total = sale_total p quantity (fetched_customer db customer_id)) /\
  (forall msg db',
      process_sale now fault_lookup fault_sale product_id customer_id quantity db
      = (msg, db') ->
      (forall total, msg <> SaleDone total) ->
      (forall e, msg <> SaleFailed e) ->
      db' = db).
Proof.
  unfold process_sale.
  destruct product_id as [pid|]; [|by repeat split; intros; simplify_eq].
  destruct (Z.leb_spec quantity 0) as [Hq|Hq];
    [by repeat split; intros; simplify_eq|].
  rewrite get_product_by_id_run.
  destruct (match fault_lookup with
            | Some O => Raise StorageFailure
            | _ => Ok (products db !! pid)
            end) as [[p|]|e] eqn:Hlookup;
    [|by repeat split; intros; simplify_eq..].
  assert (products db !! pid = Some p) as Hp.
  { destruct fault_lookup as [[|n]|]; by simplify_eq. }
  destruct (Z.ltb_spec (Product.quantity p) quantity) as [Hlt|Hle];
    [by repeat split; intros; simplify_eq|].
  destruct (record_sale_run now pid quantity customer_id fault_sale db p Hp Hle)
    as [-> | [-> | ->]]; simpl.
  - repeat split; [done| |].
    + intros total db' [= <- <-]. exists pid, p.
      repeat split; try done; try lia.
      unfold after_sale. simpl. by rewrite lookup_insert_eq.
    + intros msg db' [= <- <-] Hdone. by destruct (Hdone _ eq_refl).
  - repeat split; [done..|].
    intros msg db' [= <- <-] _ Hfailed. by destruct (Hfailed _ eq_refl).
  - repeat split; [done..|].
    intros msg db' [= <- <-] _ Hfailed. by destruct (Hfailed _ eq_refl).
Qed.

Lemma process_sale_guarded_witness :
  exists pid p,
    Some 1 = Some pid /\
    products shop !! pid = Some p /\
    0 < 3 <= Product.quantity p /\
    (Product.quantity <$> products (after_sale 100 1 3 (Some 1) shop widget) !! pid)
    = Some (Product.quantity p - 3) /\
    sale_total widget 3 (Some alice)
    = sale_total p 3 (fetched_customer shop (Some 1)).
Proof.
  destruct (process_sale_guarded 100 None None (Some 1) (Some 1) 3 shop)
    as (_ & Hdone & _).
  apply (Hdone (sale_total widget 3 (Some alice))
               (after_sale 100 1 3 (Some 1) shop widget)).
  reflexivity.
Defined.

Lemma or_zero_sql_sum (values : list Q) :
  (or_zero (sql_sum values) == foldr Qplus 0 values)%Q.
Proof.
  destruct values as [|v values]; [reflexivity|].
  unfold sql_sum, or_zero.
  destruct (Qeq_bool (foldr Qplus 0%Q (v :: values)) 0) eqn:E; [|reflexivity].
  apply Qeq_bool_iff in E. by rewrite E.
Qed.

Lemma foldr_Qplus_Permutation (l1 l2 : list Q) :
  l1 ≡ₚ l2 -> (foldr Qplus 0 l1 == foldr Qplus 0 l2)%Q.
Proof.
  induction 1 as [|x l1 l2 _ IH|x y l|l1 l2 l3 _ IH1 _ IH2]; simpl.
  - reflexivity.
  - by rewrite IH.
  - ring.
  - by rewrite IH1.
Qed.

Lemma sales_total_insert (tbl : gmap Z Sale.t) (id : Z) (sale : Sale.t) :
  tbl !! id = None ->
  (sales_total (<[id := sale]> tbl) == sales_total tbl + Sale.total sale)%Q.
Proof.
  intros Hid. unfold sales_total.
  rewrite (foldr_Qplus_Permutation _ (Sale.total sale
             :: (Sale.total ∘ snd <$> map_to_list tbl))).
  - simpl. ring.
  - by rewrite map_to_list_insert.
Qed.

Lemma get_sales_by_date_range_run (start_date end_date : Z) (fault : option nat)
    (db : DB) :
  run (get_sales_by_date_range start_date end_date) fault db
  = (match fault with
     | Some O => Raise StorageFailure
     | _ => Ok (map_to_list
                  (filter (fun r => (start_date <=? Sale.date r.2)
                                    && (Sale.date r.2 <=? end_date) = true)
                          (sales db)))
     end, db).
Proof. unfold get_sales_by_date_range. destruct fault as [[|n]|]; by run_query. Qed.

Lemma get_total_sales_amount_run (start_date end_date : option Z)
    (fault : option nat) (db : DB) :
  run (get_total_sales_amount start_date end_date) fault db
  = (match fault with
     | Some O => Raise StorageFailure
     | _ =>
         Ok (or_zero (sql_sum (Sale.total ∘ snd <$>
               match start_date, end_date with
               | Some s, Some e =>
                   map_to_list
                     (filter (fun r => (s <=? Sale.date r.2)
                                       && (Sale.date r.2 <=? e) = true)
                             (sales db))
               | _, _ => map_to_list (sales db)
               end)))
     end, db).
Proof.
  unfold get_total_sales_amount.
  destruct start_date, end_date, fault as [[|n]|]; by run_query.
Qed.

(** X10: [get_sales_by_date_range] returns, once each, exactly the sales
    whose date lies between the two bounds, both included; none when the end
    is before the start. The store is unchanged. *)
Theorem sales_by_date_range_exact (start_date end_date : Z) (db : DB) :
  exists rows,
    run (get_sales_by_date_range start_date end_date) None db = (Ok rows, db) /\
    NoDup rows /\
    (forall id sale,
        (id, sale) ∈ rows <->
        sales db !! id = Some sale /\ start_date <= Sale.date sale <= end_date) /\
    (end_date < start_date -> rows = []) /\
    (forall fault,
        (run (get_sales_by_date_range start_date end_date) fault db).2 = db).
Proof.
  eexists. split; [by rewrite get_sales_by_date_range_run|].
  split; [apply NoDup_map_to_list|].
  assert (forall id sale,
    (id, sale) ∈ map_to_list
      (filter (fun r => (start_date <=? Sale.date r.2)
                        && (Sale.date r.2 <=? end_date) = true) (sales db)) <->
    sales db !! id = Some sale /\ start_date <= Sale.date sale <= end_date) as Hrows.
  { intros id sale. rewrite elem_of_map_to_list, map_lookup_filter_Some. simpl.
    rewrite andb_true_iff, !Z.leb_le. done. }
  split; [done|]. split.
  - intros Hempty.
    destruct (map_to_list _) as [|[id sale] rows] eqn:E; [done|].
    assert ((id, sale) ∈ (id, sale) :: rows) as Hin by apply list_elem_of_here.
    apply Hrows in Hin. lia.
  - intros fault. by rewrite get_sales_by_date_range_run.
Qed.

Lemma sales_by_date_range_exact_witness :
  exists rows,
    run (get_sales_by_date_range 101 100) None shop_sold_once
    = (Ok rows, shop_sold_once) /\
    rows = [].
Proof.
  destruct (sales_by_date_range_exact 101 100 shop_sold_once)
    as (rows & Hrun & _ & _ & Hempty & _).
  exists rows. split; [exact Hrun|]. apply Hempty. lia.
Defined.

(** X11: [get_total_sales_amount] with both bounds is the sum of the totals
    of the sales that [get_sales_by_date_range] returns for them; with a
    bound missing the other one is ignored and the amount is the sum over
    the whole table; for an empty Sale table it is 0. The store is
    unchanged. *)
Theorem total_sales_amount_sum (start_date end_date : option Z) (db : DB) :
  exists amount,
    run (get_total_sales_amount start_date end_date) None db = (Ok amount, db) /\
    (forall s e rows,
        start_date = Some s -> end_date = Some e ->
        run (get_sales_by_date_range s e) None db = (Ok rows, db) ->
        (amount == foldr Qplus 0 (Sale.total ∘ snd <$> rows))%Q) /\
    (start_date = None \/ end_date = None ->
     (amount == sales_total (sales db))%Q) /\
    (sales db = ∅ -> amount = 0%Q) /\
    (forall fault,
        (run (get_total_sales_amount start_date end_date) fault db).2 = db).
Proof.
  eexists. split; [by rewrite get_total_sales_amount_run|].
  split; [|split; [|split]].
  - intros s e rows -> ->. rewrite get_sales_by_date_range_run.
    intros [= <-]. apply or_zero_sql_sum.
  - intros Hnone. rewrite or_zero_sql_sum. unfold sales_total.
    by destruct start_date, end_date, Hnone.
  - intros Hempty. rewrite Hempty.
    destruct start_date, end_date;
      by rewrite ?map_filter_empty, map_to_list_empty.
  - intros fault. by rewrite get_total_sales_amount_run.
Qed.

Lemma total_sales_amount_sum_witness :
  exists amount,
    run (get_total_sales_amount (Some 101) None) None shop_sold_once
    = (Ok amount, shop_sold_once) /\
    (amount == sales_total (sales shop_sold_once))%Q /\
    (amount == 13)%Q.
Proof.
  destruct (total_sales_amount_sum (Some 101) None shop_sold_once)
    as (amount & Hrun & _ & Hall & _).
  exists amount. split; [exact Hrun|].
  assert (amount == sales_total (sales shop_sold_once))%Q as Ha
    by (apply Hall; by right).
  split; [exact Ha|]. rewrite Ha. by vm_compute.
Defined.

(** X12: recording a sale raises [get_total_sales_amount()] by the total of
    that sale. *)
Theorem total_sales_amount_after_sale (now pid q : Z) (cid : option Z) (db : DB)
    (p : Product.t) :
  products db !! pid = Some p ->
  q <= Product.quantity p ->
  exists before sid sale db' after,
    run (get_total_sales_amount None None) None db = (Ok before, db) /\
    run (record_sale now pid q cid) None db = (Ok (Some (sid, sale)), db') /\
    run (get_total_sales_amount None None) None db' = (Ok after, db') /\
    (after == before + Sale.total sale)%Q.
Proof.
  intros Hp Hq.
  eexists _, _, _, _, _.
  split; [by rewrite get_total_sales_amount_run|].
  split; [by apply record_sale_run_ok|].
  split; [by rewrite get_total_sales_amount_run|].
  rewrite !or_zero_sql_sum.
  apply (sales_total_insert (sales db)), next_id_fresh.
Qed.

Lemma total_sales_amount_after_sale_witness :
  exists before sid sale db' after,
    run (get_total_sales_amount None None) None shop_sold_once
    = (Ok before, shop_sold_once) /\
    run (record_sale 100 1 2 (Some 1)) None shop_sold_once
    = (Ok (Some (sid, sale)), db') /\
    run (get_total_sales_amount None None) None db' = (Ok after, db') /\
    (after == before + Sale.total sale)%Q.
Proof.
  apply (total_sales_amount_after_sale 100 1 2 (Some 1) shop_sold_once widget).
  - reflexivity.
  - simpl. lia.
Defined.

Lemma get_product_related_counts_run (pid : Z) (db : DB) :
  run (get_product_related_counts pid) None db
  = (Ok (size (filter (fun r => (Sale.product_id r.2 =? pid) = true) (sales db)),
         size (filter (fun r => (Supply.product_id r.2 =? pid) = true) (supplies db)),
         size (filter (fun r => (InventoryCheck.product_id r.2 =? pid) = true)
                      (inventory_checks db))),
     db).
Proof.
  unfold get_product_related_counts. run_query.
  by rewrite !length_map_to_list.
Qed.

Lemma size_filter_matching {R : Type} (key : R -> Z) (pid : Z) (m : gmap Z R) :
  size m
  = Nat.add (size (filter (fun r => key r.2 <> pid) m))
            (size (filter (fun r => (key r.2 =? pid) = true) m)).
Proof.
  rewrite <- (map_filter_union_complement
                (fun r : Z * R => (key r.2 =? pid) = true) m) at 1.
  rewrite map_size_disj_union by apply map_disjoint_filter_complement.
  rewrite Nat.add_comm. f_equal.
  f_equal. apply map_filter_ext. intros i x _. simpl.
  by rewrite Z.eqb_eq.
Qed.

Lemma size_filter_none {R : Type} (key : R -> Z) (pid : Z) (m : gmap Z R) :
  size (filter (fun r => (key r.2 =? pid) = true)
               (filter (fun r => key r.2 <> pid) m)) = 0%nat.
Proof.
  apply map_size_empty_iff, map_empty. intros i.
  apply map_lookup_filter_None. right. intros x Hx Hc.
  apply map_lookup_filter_Some in Hx as [_ Hne]. simpl in *.
  by apply Z.eqb_eq in Hc.
Qed.

(** X13: the counts of [get_product_related_counts] are the numbers of rows
    that [delete_product] removes from the Sale, Supply and InventoryCheck
    tables, one product goes, and afterwards the counts are all 0. *)
Theorem related_counts_are_deleted (pid : Z) (db : DB) :
  is_Some (products db !! pid) ->
  exists n_sales n_supplies n_checks db',
    run (get_product_related_counts pid) None db
    = (Ok (n_sales, n_supplies, n_checks), db) /\
    run (delete_product pid) None db = (Ok true, db') /\
    size (sales db) = (size (sales db') + n_sales)%nat /\
    size (supplies db) = (size (supplies db') + n_supplies)%nat /\
    size (inventory_checks db) = (size (inventory_checks db') + n_checks)%nat /\
    size (products db) = S (size (products db')) /\
    run (get_product_related_counts pid) None db' = (Ok (0, 0, 0)%nat, db').
Proof.
  intros [p Hp]. eexists _, _, _, _.
  split; [apply get_product_related_counts_run|].
  split; [apply (delete_product_run pid None db p Hp)|].
  unfold cascade_deleted at 1 2 3 4. simpl.
  split; [apply (size_filter_matching Sale.product_id)|].
  split; [apply (size_filter_matching Supply.product_id)|].
  split; [apply (size_filter_matching InventoryCheck.product_id)|].
  split.
  { rewrite map_size_delete, Hp. 
    assert (size (products db) <> 0)%nat; [|lia].
    intros H0. apply map_size_empty_iff in H0. by rewrite H0 in Hp. }
  rewrite get_product_related_counts_run. unfold cascade_deleted. simpl.
  by rewrite (size_filter_none Sale.product_id),
    (size_filter_none Supply.product_id),
    (size_filter_none InventoryCheck.product_id).
Qed.

Lemma related_counts_are_deleted_witness :
  exists n_sales n_supplies n_checks db',
    run (get_product_related_counts 1) None shop_sold_once
    = (Ok (n_sales, n_supplies, n_checks), shop_sold_once) /\
    run (delete_product 1) None shop_sold_once = (Ok true, db') /\
    size (sales shop_sold_once) = (size (sales db') + n_sales)%nat.
Proof.
  destruct (related_counts_are_deleted 1 shop_sold_once)
    as (a & b & c & db' & Hcounts & Hdelete & Hsales & _).
  - exists widget. reflexivity.
  - by exists a, b, c, db'.
Defined.

(** X14: after [delete_product] has deleted a product, the product cannot
    be read any more, a second [delete_product] returns [False] and changes
    nothing, and [record_sale] on it is refused. *)
Theorem delete_product_twice (pid : Z) (db : DB) :
  is_Some (products db !! pid) ->
  exists db',
    run (delete_product pid) None db = (Ok true, db') /\
    run (get_product_by_id pid) None db' = (Ok None, db') /\
    run (delete_product pid) None db' = (Ok false, db') /\
    (forall now q cid, run (record_sale now pid q cid) None db' = (Ok None, db')).
Proof.
  intros [p Hp]. exists (cascade_deleted pid db).
  assert (products (cascade_deleted pid db) !! pid = None) as Hgone
    by apply lookup_delete_eq.
  split; [apply (delete_product_run pid None db p Hp)|].
  split; [by rewrite get_product_by_id_run, Hgone|].
  split; [by apply delete_product_run_absent|].
  intros now q cid. rewrite record_sale_run_refused; [done|by rewrite Hgone].
Qed.

Lemma delete_product_twice_witness :
  exists db',
    run (delete_product 1) None shop_sold_once = (Ok true, db') /\
    run (get_product_by_id 1) None db' = (Ok None, db') /\
    run (delete_product 1) None db' = (Ok false, db').
Proof.
  destruct (delete_product_twice 1 shop_sold_once) as (db' & H1 & H2 & H3 & _).
  - exists widget. reflexivity.
  - by exists db'.
Defined.

(** X15: the status column against the low stock query. A product is in
    the result of [get_low_stock_products] exactly when its status is "low
    stock", or "out of stock" with a positive [min_stock]; a product shown
    as in stock is never in it. *)
Theorem low_stock_status (db : DB) (id : Z) (p : Product.t) :
  products db !! id = Some p ->
  exists rows,
    run get_low_stock_products None db = (Ok rows, db) /\
    ((id, p) ∈ rows <->
     status p = LowStock \/ (status p = OutOfStock /\ 0 < Product.min_stock p)) /\
    (status p = InStock -> (id, p) ∉ rows).
Proof.
  intros Hp. eexists. split; [by rewrite get_low_stock_products_run|].
  assert ((id, p) ∈ map_to_list
            (filter (fun r => (Product.quantity r.2 <? Product.min_stock r.2) = true)
                    (products db))
          <-> Product.quantity p < Product.min_stock p) as ->.
  { rewrite elem_of_map_to_list, map_lookup_filter_Some. simpl.
    rewrite Z.ltb_lt. split; [by intros [_ ?]|done]. }
  unfold status.
  destruct (Z.eqb_spec (Product.quantity p) 0) as [H0|H0];
    destruct (Z.ltb_spec (Product.quantity p) (Product.min_stock p)) as [Hlt|Hge].
  all: split; [split; [intros ?|intros [?|[? ?]]]|intros ?]; try done; try lia.
  all: auto with lia.
Qed.

Lemma low_stock_status_witness :
  exists rows,
    run get_low_stock_products None shop_sold_out = (Ok rows, shop_sold_out) /\
    ((2, Product.set_quantity 0 gadget) ∈ rows <->
     status (Product.set_quantity 0 gadget) = LowStock \/
     (status (Product.set_quantity 0 gadget) = OutOfStock /\
      0 < Product.min_stock (Product.set_quantity 0 gadget))).
Proof.
  destruct (low_stock_status shop_sold_out 2 (Product.set_quantity 0 gadget))
    as (rows & Hrun & Hiff & _).
  - reflexivity.
  - by exists rows.
Defined.

(** X16: a sale followed by a supply of the same quantity of the same
    product leaves the Product table as it was before the sale; both the
    sale and the supply are on record. *)
Theorem sale_then_supply_restores_stock (now now' pid q : Z) (cid : option Z)
    (supplier : string) (cost : Q) (db : DB) (p : Product.t) :
  products db !! pid = Some p ->
  q <= Product.quantity p ->
  exists sid sale db1 supply_id supply db2,
    run (record_sale now pid q cid) None db = (Ok (Some (sid, sale)), db1) /\
    run (add_supply now' supplier pid q cost) None db1
    = (Ok (supply_id, supply), db2) /\
    products db2 = products db /\
    sales db2 !! sid = Some sale /\
    supplies db2 !! supply_id = Some supply /\
    Supply.quantity supply = Sale.quantity sale.
Proof.
  intros Hp Hq. eexists _, _, _, _, _, _.
  split; [by apply record_sale_run_ok|].
  split; [apply add_supply_run_ok|].
  unfold after_supply, after_sale. simpl. rewrite !lookup_insert_eq.
  split; [|done].
  rewrite insert_insert_eq. apply insert_id. rewrite Hp. f_equal.
  destruct p. unfold Product.set_quantity. simpl. f_equal. lia.
Qed.

Lemma sale_then_supply_restores_stock_witness :
  exists sid sale db1 supply_id supply db2,
    run (record_sale 100 1 3 None) None shop = (Ok (Some (sid, sale)), db1) /\
    run (add_supply 200 "Acme" 1 3 50) None db1 = (Ok (supply_id, supply), db2) /\
    products db2 = products shop.
Proof.
  destruct (sale_then_supply_restores_stock 100 200 1 3 None "Acme" 50 shop widget)
    as (sid & sale & db1 & supply_id & supply & db2 & H1 & H2 & H3 & _).
  - reflexivity.
  - simpl. lia.
  - by exists sid, sale, db1, supply_id, supply, db2.
Defined.

Lemma get_all_products_run (db : DB) :
  run get_all_products None db = (Ok (map_to_list (products db)), db).
Proof. unfold get_all_products. by run_query. Qed.

(** X17: after [add_product], [get_all_products] lists what it listed
    before and the new product, under a key that was not listed, each key
    once. *)
Theorem add_product_listed (name : string) (category : ProductCategory) (price : Q)
    (quantity min_stock : Z) (barcode description : option string) (db : DB) :
  exists rows id row db' rows',
    run get_all_products None db = (Ok rows, db) /\
    run (add_product name category price quantity min_stock barcode description)
        None db = (Ok (id, row), db') /\
    run get_all_products None db' = (Ok rows', db') /\
    rows' ≡ₚ (id, row) :: rows /\
    NoDup rows'.*1 /\
    id ∉ rows.*1.
Proof.
  eexists _, _, _, _, _.
  split; [apply get_all_products_run|].
  split; [by rewrite add_product_run|].
  split; [apply get_all_products_run|]. simpl.
  split; [apply map_to_list_insert, next_id_fresh|].
  split; [apply NoDup_fst_map_to_list|].
  intros ([k x] & Hk & Hin)%list_elem_of_fmap. simpl in Hk. subst k.
  apply elem_of_map_to_list in Hin. by rewrite next_id_fresh in Hin.
Qed.

(** ** Lemmas on the ordered queries *)

Lemma order_by_desc_exists {R : Type} (key : R -> Z) (rows : list (Z * R)) :
  order_by_desc key rows (merge_sort (desc_by key) rows).
Proof.
  constructor.
  - apply merge_sort_Permutation.
  - apply StronglySorted_merge_sort; apply _.
Qed.

(** A row that is newer than every other row comes first. *)
Lemma order_by_desc_newest {R : Type} (key : R -> Z) (m : gmap Z R) (id : Z)
    (x : R) (result : list (Z * R)) :
  m !! id = None ->
  (forall k y, m !! k = Some y -> key y < key x) ->
  order_by_desc key (map_to_list (<[id := x]> m)) result ->
  exists tail,
    result = (id, x) :: tail /\ order_by_desc key (map_to_list m) tail.
Proof.
  intros Hid Hnew [ordered Hperm Hsorted].
  rewrite map_to_list_insert in Hperm by done.
  destruct ordered as [|h tail].
  { by apply Permutation_nil_cons in Hperm. }
  apply StronglySorted_inv in Hsorted as [Htail Hhead].
  assert (h = (id, x)) as ->.
  { assert (h ∈ (id, x) :: map_to_list m) as Hh
      by (rewrite <- Hperm; apply list_elem_of_here).
    apply elem_of_cons in Hh as [?|Hh]; [done|].
    destruct h as [k y]. apply elem_of_map_to_list in Hh.
    assert ((id, x) ∈ (k, y) :: tail) as Hx
      by (rewrite Hperm; apply list_elem_of_here).
    apply elem_of_cons in Hx as [[= -> ->]|Hx]; [done|].
    rewrite Forall_forall in Hhead. specialize (Hhead _ Hx).
    unfold desc_by in Hhead. simpl in Hhead.
    specialize (Hnew k y Hh). lia. }
  exists tail. split; [done|].
  constructor; [|done]. by apply Permutation_cons_inv in Hperm.
Qed.

(** X18: a sale recorded at a time later than every earlier sale of the
    same customer comes first in whatever [get_customer_purchases] returns
    for that customer, and the rest of the list is a list the method could
    return before the sale. The method always has a list to return. *)
Theorem customer_purchases_newest_first (now pid q : Z) (cid : option Z) (db : DB)
    (p : Product.t) (result : list (Z * Sale.t)) :
  products db !! pid = Some p ->
  q <= Product.quantity p ->
  (forall k s, sales db !! k = Some s -> Sale.customer_id s = cid ->
     Sale.date s < now) ->
  exists sid sale db',
    run (record_sale now pid q cid) None db = (Ok (Some (sid, sale)), db') /\
    (exists rows, get_customer_purchases db' cid rows) /\
    (get_customer_purchases db' cid result ->
     exists earlier,
       result = (sid, sale) :: earlier /\ get_customer_purchases db cid earlier).
Proof.
  intros Hp Hq Hnew.
  exists (next_id (sales db)), (sale_row now pid q cid db p),
    (after_sale now pid q cid db p).
  split; [by apply record_sale_run_ok|].
  split; [eexists; apply order_by_desc_exists|].
  unfold get_customer_purchases, after_sale. simpl.
  rewrite map_filter_insert_True by done.
  apply order_by_desc_newest.
  - apply map_lookup_filter_None. left. apply next_id_fresh.
  - intros k s [Hs Hc]%map_lookup_filter_Some. simpl in *. by apply (Hnew k s).
Qed.

Lemma customer_purchases_newest_first_witness :
  exists sid sale db',
    run (record_sale 102 1 2 None) None shop_sold_once = (Ok (Some (sid, sale)), db') /\
    (exists rows, get_customer_purchases db' None rows) /\
    (get_customer_purchases db' None
       [(3, sale_row 102 1 2 None shop_sold_once widget);
        (2, Sale.mk 2 None 1 3 3 101); (1, Sale.mk 1 None 1 10 10 100)] ->
     exists earlier,
       [(3, sale_row 102 1 2 None shop_sold_once widget);
        (2, Sale.mk 2 None 1 3 3 101); (1, Sale.mk 1 None 1 10 10 100)]
       = (sid, sale) :: earlier /\
       get_customer_purchases shop_sold_once None earlier).
Proof.
  apply (customer_purchases_newest_first 102 1 2 None shop_sold_once widget).
  - reflexivity.
  - simpl. lia.
  - intros k s Hs _. unfold shop_sold_once in Hs. simpl in Hs.
    apply lookup_insert_Some in Hs as [[_ <-]|[_ Hs]]; [simpl; lia|].
    apply lookup_insert_Some in Hs as [[_ <-]|[_ Hs]]; [simpl; lia|].
    by rewrite lookup_empty in Hs.
Defined.

(** X19: a supply recorded at a time later than every earlier supply comes
    first in whatever [get_all_supplies] returns, followed by a list the
    method could return before; this holds also for a supply of a product
    that does not exist. *)
Theorem all_supplies_newest_first (now : Z) (supplier : string) (pid q : Z)
    (cost : Q) (db : DB) (result : list (Z * Supply.t)) :
  (forall k s, supplies db !! k = Some s -> Supply.date s < now) ->
  exists id supply db',
    run (add_supply now supplier pid q cost) None db = (Ok (id, supply), db') /\
    (exists rows, get_all_supplies db' rows) /\
    (get_all_supplies db' result ->
     exists earlier,
       result = (id, supply) :: earlier /\ get_all_supplies db earlier).
Proof.
  intros Hnew. eexists _, _, _.
  split; [apply add_supply_run_ok|].
  split; [eexists; apply order_by_desc_exists|].
  unfold get_all_supplies, after_supply. simpl.
  apply order_by_desc_newest; [apply next_id_fresh|done].
Qed.

Lemma all_supplies_newest_first_witness :
  exists id supply db',
    run (add_supply 200 "Acme" 1 7 30) None shop_supplied = (Ok (id, supply), db') /\
    get_all_supplies db'
      [(3, Supply.mk "Acme" 1 7 30 200); (2, Supply.mk "Bolt" 2 5 12 150);
       (1, Supply.mk "Acme" 1 20 50 100)] /\
    exists earlier,
      [(3, Supply.mk "Acme" 1 7 30 200); (2, Supply.mk "Bolt" 2 5 12 150);
       (1, Supply.mk "Acme" 1 20 50 100)] = (id, supply) :: earlier /\
      get_all_supplies shop_supplied earlier /\
      earlier = [(2, Supply.mk "Bolt" 2 5 12 150); (1, Supply.mk "Acme" 1 20 50 100)].
Proof.
  destruct (all_supplies_newest_first 200 "Acme" 1 7 30 shop_supplied
              [(3, Supply.mk "Acme" 1 7 30 200); (2, Supply.mk "Bolt" 2 5 12 150);
               (1, Supply.mk "Acme" 1 20 50 100)])
    as (id & supply & db' & Hrun & _ & Hfirst).
  - intros k s Hs. unfold shop_supplied in Hs. simpl in Hs.
    apply lookup_insert_Some in Hs as [[_ <-]|[_ Hs]]; [simpl; lia|].
    apply lookup_insert_Some in Hs as [[_ <-]|[_ Hs]]; [simpl; lia|].
    by rewrite lookup_empty in Hs.
  - assert (get_all_supplies db'
              [(3, Supply.mk "Acme" 1 7 30 200); (2, Supply.mk "Bolt" 2 5 12 150);
               (1, Supply.mk "Acme" 1 20 50 100)]) as Hrows.
    { rewrite add_supply_run_ok in Hrun. injection Hrun as _ _ <-.
      constructor.
      - by vm_compute.
      - apply (bool_decide_unpack _). by vm_compute. }
    exists id, supply, db'. split; [exact Hrun|]. split; [exact Hrows|].
    destruct (Hfirst Hrows) as (earlier & Heq & Hearlier).
    exists earlier. split; [exact Heq|]. split; [exact Hearlier|].
    by injection Heq as _ _ <-.
Defined.

(** X20: the customer form. With a name or a phone that is blank once
    stripped, the handler shows an error and leaves the store as it was.
    Otherwise the customer is stored under a new key with the stripped name,
    the stripped phone, which is never absent or empty, the stripped email
    or none when that is blank, and the discount as entered. [strip] leaves
    a stripped text as it is. *)
Theorem customer_form_fields (strip : string -> string) (fault : option nat)
    (name_text phone_text email_text : string) (discount : Q) (db : DB) :
  strip (strip phone_text) = strip phone_text ->
  strip (strip email_text) = strip email_text ->
  (strip name_text = EmptyString \/ strip phone_text = EmptyString ->
   CustomerForm.add_customer strip fault name_text phone_text email_text discount db
   = (CustomerForm.FieldsMissing, db)) /\
  (strip name_text <> EmptyString -> strip phone_text <> EmptyString ->
   exists id c db',
     CustomerForm.add_customer strip None name_text phone_text email_text discount db
     = (CustomerForm.CustomerAdded, db') /\
     customers db !! id = None /\
     customers db' !! id = Some c /\
     Customer.name c = strip name_text /\
     Customer.phone c = Some (strip phone_text) /\
     Customer.email c
     = (if String.eqb (strip email_text) EmptyString then None
        else Some (strip email_text)) /\
     Customer.discount c = discount).
Proof.
  intros Hphone Hemail. unfold CustomerForm.add_customer. split.
  - intros [Hn|Hp].
    + by rewrite Hn.
    + rewrite Hp. by rewrite orb_true_r.
  - intros Hn Hp.
    rewrite (proj2 (String.eqb_neq _ _) Hn), (proj2 (String.eqb_neq _ _) Hp).
    simpl (false || false). cbv iota zeta. rewrite add_customer_run.
    eexists _, _, _. split; [reflexivity|].
    split; [apply next_id_fresh|]. simpl. rewrite lookup_insert_eq.
    split; [reflexivity|]. simpl.
    split; [done|]. split.
    { rewrite (proj2 (String.eqb_neq _ _) Hp), Hphone.
      by rewrite (proj2 (String.eqb_neq _ _) Hp). }
    split; [|done].
    destruct (String.eqb_spec (strip email_text) EmptyString) as [He|He]; [done|].
    simpl. rewrite (proj2 (String.eqb_neq _ _) He), Hemail.
    by rewrite (proj2 (String.eqb_neq _ _) He).
Qed.

Lemma customer_form_fields_witness :
  CustomerForm.add_customer strip_blanks None "Bob" "    " " b@x.org" 5 shop
  = (CustomerForm.FieldsMissing, shop) /\
  exists id c db',
    CustomerForm.add_customer strip_blanks None " Bob " " 555 " "  " 5 shop
    = (CustomerForm.CustomerAdded, db') /\
    customers db' !! id = Some c /\
    Customer.phone c = Some "555" /\
    Customer.email c = None.
Proof.
  split.
  - apply (customer_form_fields strip_blanks None "Bob" "    " " b@x.org" 5 shop);
      [reflexivity|reflexivity|]. right. reflexivity.
  - destruct (customer_form_fields strip_blanks None " Bob " " 555 " "  " 5 shop)
      as [_ Hadd]; [reflexivity|reflexivity|].
    destruct Hadd as (id & c & db' & Hrun & _ & Hc & _ & Hphone & Hemail & _);
      [discriminate|discriminate|].
    by exists id, c, db'.
Defined.
